(** * Loan eligibility: the Trainer (train_model.py) and the Predictor (app.py)

    A shallow embedding of the two scripts of the repository.

    - Python values that the scripts handle are modelled by [cell] (a pandas
      cell: a missing value, a string or a number) and [pyval] (the argument
      of the dependents normalisation).  Numbers are exact rationals: the
      rounding of floating-point arithmetic is not modelled.
    - Exceptions are values of [exn]; a fallible pure computation lives in
      [result], a Streamlit script run lives in [script], which records the
      elements rendered so far and how the run ended.
    - The calls into scikit-learn, pandas and Streamlit are modelled after
      the documented behaviour of these libraries; each such definition
      says so. *)

From Stdlib Require Import ZArith QArith Lqa String Ascii List.
From stdpp Require Import base gmap strings list.

Local Open Scope Z_scope.
Local Open Scope string_scope.
Local Open Scope list_scope.

(** ** Exceptions and fallible computations *)

(** The exception classes the scripts can meet.  All of them derive from
    Python's [Exception], so an [except Exception] clause catches each. *)
Inductive exn :=
| ValueError (msg : string)
| KeyError (key : string)
| TypeError (msg : string)
| IndexError (msg : string)
| OSError (msg : string).

Inductive result (A : Type) :=
| Ok (a : A)
| Raise (e : exn).
Arguments Ok {A} a.
Arguments Raise {A} e.

#[export] Instance result_ret : MRet result := fun A a => Ok a.
#[export] Instance result_bind : MBind result := fun A B f m =>
  match m with
  | Ok a => f a
  | Raise e => Raise e
  end.

(** [l[i]] on a Python list or a numpy array. *)
Definition index {A} (l : list A) (i : nat) : result A :=
  match l !! i with
  | Some a => Ok a
  | None => Raise (IndexError "index out of range")
  end.

(** ** Cells and data frames *)

(** A pandas cell: [NaN] is the missing value. *)
Inductive cell :=
| NaN
| Str (s : string)
| Num (q : Q).

Definition is_nan (c : cell) : bool :=
  match c with
  | NaN => true
  | _ => false
  end.

(** Python's [==] on cells: numbers compare by value, a string never equals
    a number, and NaN equals nothing. *)
Definition cell_eqb (a b : cell) : bool :=
  match a, b with
  | Str s, Str t => String.eqb s t
  | Num p, Num q => Qeq_bool p q
  | _, _ => false
  end.

(** Python's [<] on cells: strings compare by code point, numbers by value,
    a comparison with NaN is false, and a string against a number raises
    [TypeError]. *)
Definition cell_ltb (a b : cell) : result bool :=
  match a, b with
  | Str s, Str t => Ok (String.ltb s t)
  | Num p, Num q => Ok (negb (Qle_bool q p))
  | Num _, NaN | NaN, Num _ | NaN, NaN => Ok false
  | _, _ => Raise (TypeError "'<' not supported between str and float")
  end.

(** A data frame, column by column: the column names in order, each with its
    values from the first row to the last. *)
Definition DataFrame : Type := list (string * list cell).

Definition columns (df : DataFrame) : list string := df.*1.

(** [df[col]]: the values of a column, [KeyError] when there is none. *)
Fixpoint df_getitem (df : DataFrame) (col : string) : result (list cell) :=
  match df with
  | [] => Raise (KeyError col)
  | (name, values) :: rest =>
      if String.eqb name col then Ok values else df_getitem rest col
  end.

(** [pd.DataFrame([data], columns=cols)]: one row; the columns are those of
    [cols], in the order of [cols]; a column that [data] has no key for
    holds NaN. *)
Definition DataFrame_of_record (data : gmap string Z) (cols : list string)
  : DataFrame :=
  map (fun col => (col, [match data !! col with
                         | Some v => Num (inject_Z v)
                         | None => NaN
                         end])) cols.

(** ** Label encoders (sklearn.preprocessing.LabelEncoder) *)

(** A fitted encoder is its array [classes_]: the distinct labels seen by
    [fit], sorted.  The code of a label is its position in [classes_]. *)
Record LabelEncoder := { classes_ : list cell }.

(** Two cells hold the same label: equal values, or two missing values
    (the encoder looks NaN up as a label of its own). *)
Definition same_label (a b : cell) : bool :=
  cell_eqb a b || is_nan a && is_nan b.

Fixpoint position (y : cell) (classes : list cell) : option nat :=
  match classes with
  | [] => None
  | c :: rest => if same_label c y then Some O else S <$> position y rest
  end.

(** [le.transform(ys)]: the code of every label, [ValueError] as soon as one
    of them is not in [classes_]. *)
Fixpoint transform (le : LabelEncoder) (ys : list cell) : result (list Z) :=
  match ys with
  | [] => Ok []
  | y :: rest =>
      match position y (classes_ le) with
      | Some i => codes ← transform le rest; Ok (Z.of_nat i :: codes)
      | None => Raise (ValueError "y contains previously unseen labels")
      end
  end.

(** ** The dependents normalisation (app.py, line 45) *)

(** What the expression is applied to: a string from the form, or an
    integer when it is applied to its own result. *)
Inductive pyval :=
| PyStr (s : string)
| PyInt (z : Z).

Definition pyval_eqb (a b : pyval) : bool :=
  match a, b with
  | PyStr s, PyStr t => String.eqb s t
  | PyInt x, PyInt y => Z.eqb x y
  | _, _ => false
  end.

Definition is_space (a : ascii) : bool :=
  let n := nat_of_ascii a in
  ((9 <=? n) && (n <=? 13) || (n =? 32))%nat.

Definition digit_of (a : ascii) : option Z :=
  let n := nat_of_ascii a in
  if ((48 <=? n) && (n <=? 57))%nat then Some (Z.of_nat n - 48) else None.

Fixpoint lstrip (l : list ascii) : list ascii :=
  match l with
  | a :: rest => if is_space a then lstrip rest else l
  | [] => []
  end.

Definition strip (l : list ascii) : list ascii :=
  rev (lstrip (rev (lstrip l))).

(** Decimal digits, a single underscore allowed between two digits. *)
Fixpoint parse_digits (acc : Z) (after_digit : bool) (l : list ascii)
  : option Z :=
  match l with
  | [] => if after_digit then Some acc else None
  | a :: rest =>
      match digit_of a with
      | Some d => parse_digits (10 * acc + d) true rest
      | None =>
          if Ascii.eqb a "_" && after_digit
          then parse_digits acc false rest
          else None
      end
  end.

Definition parse_int (l : list ascii) : option Z :=
  match strip l with
  | "+"%char :: rest => parse_digits 0 false rest
  | "-"%char :: rest => Z.opp <$> parse_digits 0 false rest
  | rest => parse_digits 0 false rest
  end.

(** Python's [int(x)] on an integer and on an ASCII string: surrounding
    white space, an optional sign, decimal digits; [ValueError] otherwise.
    (Python also reads the decimal digits of other scripts; the model
    answers [ValueError] on any non-ASCII text.) *)
Definition py_int (x : pyval) : result Z :=
  match x with
  | PyInt z => Ok z
  | PyStr s =>
      match parse_int (list_ascii_of_string s) with
      | Some z => Ok z
      | None => Raise (ValueError "invalid literal for int() with base 10")
      end
  end.

(** [3 if dependents == "3+" else int(dependents)] *)
Definition normalize_dependents (dependents : pyval) : result Z :=
  if pyval_eqb dependents (PyStr "3+") then Ok 3 else py_int dependents.

(** ** The classifier as the Predictor uses it *)

(** Whatever [joblib.load("loan_model")] returns is used through two
    methods only. *)
Record classifier := {
  predict : DataFrame -> result (list Z);
  predict_proba : DataFrame -> result (list (list Q))
}.

(** ** Streamlit script runs *)

(** The four advisory lines written under "Additional Insights". *)
Inductive insight :=
| GoodCreditHistory      (* "Good credit history increases approval chances!" *)
| PoorCreditHistory      (* "Poor credit history might lower approval chances." *)
| HighApplicantIncome    (* "High applicant income is a positive factor!" *)
| LargeLoanAmount.       (* "Large loan amounts may require additional scrutiny." *)

#[export] Instance insight_eq_dec : EqDecision insight.
Proof. solve_decision. Defined.

(** What a run renders, in order.  Messages that embed a number or an
    exception keep it as a value instead of formatting it. *)
Inductive element :=
| Title (text : string)
| SidebarHeader (text : string)
| SidebarSelectbox (label : string)
| SidebarNumberInput (label : string)
| SidebarButton (label : string)
| ErrorLoadingModel (e : exn)        (* st.error(f"Error loading model: {e}") *)
| Subheader (text : string)
| LoanApproved (proba : Q)           (* st.success(... {proba:.2f}% ...) *)
| LoanNotApproved (proba : Q)        (* st.error(... {proba:.2f}% ...) *)
| Pyplot (bars : list cell)
| WriteFrame (df : DataFrame)
| Write (i : insight)
| ErrorDuringPrediction (e : exn).   (* st.error(f"Error during prediction: {e}") *)

(** How a piece of script ends: with a value, with an exception on its way
    up, or stopped by [st.stop()].  Streamlit's stop signal derives from
    [BaseException]: [except Exception] does not catch it. *)
Inductive control (A : Type) :=
| Return (a : A)
| Raised (e : exn)
| Stopped.
Arguments Return {A} a.
Arguments Raised {A} e.
Arguments Stopped {A}.

Record script (A : Type) := Script {
  rendered : list element;
  ending : control A
}.
Arguments Script {A} rendered ending.
Arguments rendered {A} s.
Arguments ending {A} s.

#[export] Instance script_ret : MRet script := fun A a => Script [] (Return a).
#[export] Instance script_bind : MBind script := fun A B f m =>
  match m with
  | Script out (Return a) => let (out', e) := f a in Script (out ++ out') e
  | Script out (Raised e) => Script out (Raised e)
  | Script out Stopped => Script out Stopped
  end.

Definition render (e : element) : script unit := Script [e] (Return tt).

Definition lift {A} (r : result A) : script A :=
  match r with
  | Ok a => Script [] (Return a)
  | Raise e => Script [] (Raised e)
  end.

(** [st.stop()] *)
Definition st_stop {A} : script A := Script [] Stopped.

(** [try: body  except Exception as e: handler e] *)
Definition try_except {A} (body : script A) (handler : exn -> script A)
  : script A :=
  match body with
  | Script out (Raised e) => let (out', e') := handler e in Script (out ++ out') e'
  | _ => body
  end.

(** An input widget renders itself and returns what the user has chosen. *)
Definition widget {A} (e : element) (choice : A) : script A :=
  Script [e] (Return choice).

(** ** The Predictor (app.py) *)

(** The state of the eleven inputs and of the button during one run. *)
Record form := {
  gender : string;
  married : string;
  dependents : string;
  education : string;
  self_employed : string;
  applicant_income : Z;
  coapplicant_income : Z;
  loan_amount : Z;
  loan_amount_term : Z;
  credit_history : Z;
  property_area : string;
  predict_clicked : bool
}.

(** The options of the select boxes and the lower bound of the number
    inputs (lines 26 to 36). *)
Definition form_valid (f : form) : Prop :=
  gender f ∈ ["Male"; "Female"] ∧
  married f ∈ ["No"; "Yes"] ∧
  dependents f ∈ ["0"; "1"; "2"; "3+"] ∧
  education f ∈ ["Graduate"; "Not Graduate"] ∧
  self_employed f ∈ ["No"; "Yes"] ∧
  0 <= applicant_income f ∧
  0 <= coapplicant_income f ∧
  0 <= loan_amount f ∧
  loan_amount_term f ∈ [360; 180; 120; 60] ∧
  credit_history f ∈ [1; 0] ∧
  property_area f ∈ ["Urban"; "Semiurban"; "Rural"].

Definition feature_order : list string :=
  ["Gender"; "Married"; "Dependents"; "Education"; "Self_Employed";
   "ApplicantIncome"; "CoapplicantIncome"; "LoanAmount";
   "Loan_Amount_Term"; "Credit_History"; "Property_Area"].

(** The right-hand side of line 42:
    [label_encoders[col].transform([value])[0] if col in label_encoders else 0] *)
Definition encode_label (label_encoders : gmap string LabelEncoder)
    (col value : string) : result Z :=
  match label_encoders !! col with
  | Some le => codes ← transform le [Str value]; index codes 0
  | None => Ok 0
  end.

(** The loop of lines 40 to 42 over the zipped names and values. *)
Fixpoint encode_categoricals (label_encoders : gmap string LabelEncoder)
    (pairs : list (string * string)) (data : gmap string Z)
  : result (gmap string Z) :=
  match pairs with
  | [] => Ok data
  | (col, value) :: rest =>
      code ← encode_label label_encoders col value;
      encode_categoricals label_encoders rest (<[col := code]> data)
  end.

Definition categorical_inputs (f : form) : list (string * string) :=
  zip ["Gender"; "Married"; "Education"; "Self_Employed"; "Property_Area"]
      [gender f; married f; education f; self_employed f; property_area f].

(** Lines 38 to 56, after the widgets have been read. *)
Definition encode_form (label_encoders : gmap string LabelEncoder) (f : form)
  : result DataFrame :=
  data ← encode_categoricals label_encoders (categorical_inputs f) ∅;
  d ← normalize_dependents (PyStr (dependents f));
  let data := <["Dependents" := d]> data in
  let data :=
    <["Credit_History" := credit_history f]>
      (<["Loan_Amount_Term" := loan_amount_term f]>
         (<["LoanAmount" := loan_amount f]>
            (<["CoapplicantIncome" := coapplicant_income f]>
               (<["ApplicantIncome" := applicant_income f]> data)))) in
  Ok (DataFrame_of_record data feature_order).

Definition user_input_features (label_encoders : gmap string LabelEncoder)
    (f : form) : script DataFrame :=
  _ ← widget (SidebarSelectbox "Gender") (gender f);
  _ ← widget (SidebarSelectbox "Married") (married f);
  _ ← widget (SidebarSelectbox "Dependents") (dependents f);
  _ ← widget (SidebarSelectbox "Education") (education f);
  _ ← widget (SidebarSelectbox "Self Employed") (self_employed f);
  _ ← widget (SidebarNumberInput "Applicant Income") (applicant_income f);
  _ ← widget (SidebarNumberInput "Coapplicant Income") (coapplicant_income f);
  _ ← widget (SidebarNumberInput "Loan Amount (in thousands)") (loan_amount f);
  _ ← widget (SidebarSelectbox "Loan Amount Term (months)") (loan_amount_term f);
  _ ← widget (SidebarSelectbox "Credit History") (credit_history f);
  _ ← widget (SidebarSelectbox "Property Area") (property_area f);
  lift (encode_form label_encoders f).

(** Lines 63 and 64: the predicted label and the approval probability. *)
Definition predict_eligibility (model : classifier) (input_df : DataFrame)
  : result (Z * Q) :=
  labels ← predict model input_df;
  prediction ← index labels 0;
  probas ← predict_proba model input_df;
  row ← index probas 0;
  p ← index row 1;
  Ok (prediction, (p * 100)%Q).

(** [input_df[col][0]] *)
Definition first_of (input_df : DataFrame) (col : string) : result cell :=
  values ← df_getitem input_df col;
  index values 0.

(** Lines 85 to 95. *)
Definition additional_insights (input_df : DataFrame) : script unit :=
  _ ← render (Subheader "Additional Insights");
  credit ← lift (first_of input_df "Credit_History");
  _ ← (if cell_eqb credit (Num 1)
       then render (Write GoodCreditHistory)
       else render (Write PoorCreditHistory));
  income ← lift (first_of input_df "ApplicantIncome");
  high ← lift (cell_ltb (Num 8000) income);
  _ ← (if high : bool then render (Write HighApplicantIncome) else mret tt);
  amount ← lift (first_of input_df "LoanAmount");
  large ← lift (cell_ltb (Num 300) amount);
  if large : bool then render (Write LargeLoanAmount) else mret tt.

(** The body of the [try] of lines 62 to 96. *)
Definition prediction_body (model : classifier) (input_df : DataFrame)
  : script unit :=
  '(prediction, proba) ← lift (predict_eligibility model input_df);
  _ ← render (Subheader "Prediction Result");
  _ ← (if Z.eqb prediction 1
       then render (LoanApproved proba)
       else render (LoanNotApproved proba));
  _ ← render (Subheader "Loan Distribution Insights");
  a ← lift (first_of input_df "ApplicantIncome");
  c ← lift (first_of input_df "CoapplicantIncome");
  l ← lift (first_of input_df "LoanAmount");
  _ ← render (Pyplot [a; c; l]);
  _ ← render (Subheader "User Input Summary");
  _ ← render (WriteFrame input_df);
  additional_insights input_df.

(** Lines 61 to 98: the handler of the button. *)
Definition prediction_handler (model : classifier) (input_df : DataFrame)
  : script unit :=
  try_except (prediction_body model input_df)
             (fun e => render (ErrorDuringPrediction e)).

(** What the two [joblib.load] calls find on disk. *)
Record artifacts := {
  loan_model : result classifier;
  label_encoders_file : result (gmap string LabelEncoder)
}.

(** Lines 8 to 13. *)
Definition load_artifacts (disk : artifacts)
  : script (classifier * gmap string LabelEncoder) :=
  try_except
    (model ← lift (loan_model disk);
     label_encoders ← lift (label_encoders_file disk);
     mret (model, label_encoders))
    (fun e => _ ← render (ErrorLoadingModel e); st_stop).

(** One run of app.py, from its first line to its last.  Streamlit runs the
    whole script again at every interaction; nothing is kept between two
    runs. *)
Definition app (disk : artifacts) (f : form) : script unit :=
  '(model, label_encoders) ← load_artifacts disk;
  _ ← render (Title "Loan Eligibility Prediction System");
  _ ← render (SidebarHeader "User Input Features");
  input_df ← user_input_features label_encoders f;
  clicked ← widget (SidebarButton "Predict Eligibility") (predict_clicked f);
  if clicked : bool then prediction_handler model input_df else mret tt.

(** A session: Streamlit runs the script from its first line at every
    interaction, and the script keeps nothing from one run to the next (no
    session state, no cache): the artifacts are read again each time. *)
Definition session (interactions : list (artifacts * form))
  : list (script unit) :=
  map (fun '(disk, f) => app disk f) interactions.

(** The advisory lines among the rendered elements. *)
Definition insights_of (es : list element) : list insight :=
  omap (fun e => match e with Write i => Some i | _ => None end) es.

(** ** The random forest (sklearn.ensemble.RandomForestClassifier) *)

(** A fitted tree, seen from outside: for one row of features, the
    probability it gives to each class.  How a tree splits is not used by
    either script. *)
Definition tree : Type := list cell -> list Q.

(** A fitted forest: the class labels in increasing order and the trees. *)
Record RandomForestClassifier := {
  rf_classes_ : list Z;
  estimators_ : list tree
}.

Definition n_rows (df : DataFrame) : nat :=
  match df with
  | [] => O
  | (_, values) :: _ => length values
  end.

Definition row (df : DataFrame) (i : nat) : list cell :=
  map (fun column => default NaN (column.2 !! i)) df.

Definition rows (df : DataFrame) : list (list cell) :=
  map (row df) (seq 0 (n_rows df)).

(** [predict_proba] of the forest on one row: the probabilities of the
    trees are added up class by class and divided by the number of trees.
    The sums are exact here; NumPy adds and divides in float64, so the two
    agree where no rounding occurs (as with the forests defined below, whose
    leaves are multiples of one quarter) and can differ in the last digit
    elsewhere.  No statement below on how a decision compares with a
    probability rests on this arithmetic. *)
Definition forest_proba (rf : RandomForestClassifier) (x : list cell)
  : list Q :=
  let all_proba :=
    foldl (fun acc t => zip_with Qplus acc (t x))
          (replicate (length (rf_classes_ rf)) 0%Q)
          (estimators_ rf) in
  map (fun s => (s / inject_Z (Z.of_nat (length (estimators_ rf))))%Q) all_proba.

(** [np.argmax]: the position of the first greatest entry. *)
Fixpoint argmax_from (best_at : nat) (best : Q) (i : nat) (l : list Q) : nat :=
  match l with
  | [] => best_at
  | x :: rest =>
      if Qle_bool x best
      then argmax_from best_at best (S i) rest
      else argmax_from i x (S i) rest
  end.

Definition argmax (l : list Q) : nat :=
  match l with
  | [] => O
  | x :: rest => argmax_from O x 1%nat rest
  end.

(** [predict] of the forest on one row:
    [classes_.take(np.argmax(predict_proba(X), axis=1))]. *)
Definition forest_predict (rf : RandomForestClassifier) (x : list cell)
  : result Z :=
  index (rf_classes_ rf) (argmax (forest_proba rf x)).

(** The forest behind the two methods the Predictor calls.  The checks
    scikit-learn makes on the frame before it answers (the names of the
    columns, values that fit float32) are not modelled: this forest answers
    on every frame. *)
Definition forest_classifier (rf : RandomForestClassifier) : classifier :=
  {| predict := fun X => mapM (forest_predict rf) (rows X);
     predict_proba := fun X => Ok (map (forest_proba rf) (rows X)) |}.

(** ** The Trainer (train_model.py) *)

(** [df.drop(columns=[col])] *)
Definition df_drop (df : DataFrame) (col : string) : result DataFrame :=
  if existsb (String.eqb col) (columns df)
  then Ok (List.filter (fun column => negb (String.eqb column.1 col)) df)
  else Raise (KeyError col).

(** [df[col] = values] on a column that exists. *)
Definition df_setitem (df : DataFrame) (col : string) (values : list cell)
  : DataFrame :=
  map (fun column => if String.eqb column.1 col then (col, values) else column) df.

(** *** SimpleImputer(strategy='most_frequent') *)

Definition count_occurrences (x : cell) (l : list cell) : nat :=
  length (List.filter (cell_eqb x) l).

(** The count of the most common value. *)
Definition most_frequent_count (observed : list cell) : nat :=
  foldr (fun x acc => Nat.max (count_occurrences x observed) acc) O observed.

(** Python's [min] over [best] followed by [l]. *)
Fixpoint py_min_from (best : cell) (l : list cell) : result cell :=
  match l with
  | [] => Ok best
  | x :: rest =>
      lt ← cell_ltb x best;
      py_min_from (if lt : bool then x else best) rest
  end.

Definition observed (column : list cell) : list cell :=
  List.filter (fun c => negb (is_nan c)) column.

(** The statistic of a column: the most frequent of its observed values,
    the smallest of them when several are as frequent, and NaN when nothing
    was observed. *)
Definition most_frequent (column : list cell) : result cell :=
  let obs := observed column in
  let n := most_frequent_count obs in
  match List.filter (fun x => Nat.eqb (count_occurrences x obs) n) obs with
  | [] => Ok NaN
  | x :: rest => py_min_from x rest
  end.

Definition fill (statistic : cell) (column : list cell) : list cell :=
  map (fun c => if is_nan c then statistic else c) column.

(** One column through [fit] and [transform]: a column without any observed
    value has no statistic and is left out of the output. *)
Definition impute_column (column : list cell) : result (option (list cell)) :=
  statistic ← most_frequent column;
  Ok (if is_nan statistic then None else Some (fill statistic column)).

(** [imputer.fit_transform(df)]: the imputed columns that are kept; an input
    without rows or without columns is refused. *)
Definition SimpleImputer_fit_transform (df : DataFrame)
  : result (list (list cell)) :=
  if Nat.eqb (n_rows df) 0 then Raise (ValueError "Found array with 0 sample(s)")
  else
    imputed ← mapM impute_column df.*2;
    Ok (omap id imputed).

(** [df.iloc[:, :] = array]: the array must have the shape of the frame. *)
Definition iloc_assign (df : DataFrame) (array : list (list cell))
  : result DataFrame :=
  if Nat.eqb (length array) (length df)
  then Ok (zip_with (fun column values => (column.1, values)) df array)
  else Raise (ValueError "shape mismatch").

(** Lines 14 and 15. *)
Definition impute (df : DataFrame) : result DataFrame :=
  array ← SimpleImputer_fit_transform df;
  iloc_assign df array.

(** [df.replace({'3+': 3})] (line 18), on every cell of the frame. *)
Definition replace_3plus (c : cell) : cell :=
  if cell_eqb c (Str "3+") then Num 3 else c.

Definition df_replace_3plus (df : DataFrame) : DataFrame :=
  map (fun column => (column.1, map replace_3plus column.2)) df.

(** *** LabelEncoder.fit_transform *)

(** Insertion into a sorted list without repetition; comparing a string
    with a number raises [TypeError]. *)
Fixpoint insert_unique (x : cell) (sorted : list cell) : result (list cell) :=
  match sorted with
  | [] => Ok [x]
  | y :: rest =>
      if cell_eqb x y then Ok sorted
      else
        lt ← cell_ltb x y;
        if lt : bool then Ok (x :: sorted)
        else (r ← insert_unique x rest; Ok (y :: r))
  end.

Fixpoint sorted_unique (values : list cell) : result (list cell) :=
  match values with
  | [] => Ok []
  | x :: rest => s ← sorted_unique rest; insert_unique x s
  end.

(** [le.fit(values)]: the sorted distinct labels, a missing value last. *)
Definition fit (values : list cell) : result LabelEncoder :=
  classes ← sorted_unique (observed values);
  Ok {| classes_ := classes ++ (if existsb is_nan values then [NaN] else []) |}.

(** [le.fit_transform(values)] *)
Definition fit_transform (values : list cell)
  : result (LabelEncoder * list Z) :=
  le ← fit values;
  codes ← transform le values;
  Ok (le, codes).

Section Trainer.

(** Lines 32 to 34: the random split and the fit of the forest, from the
    feature columns and the encoded target. *)
Variable fit_forest : DataFrame -> list cell -> result RandomForestClassifier.

(** The loop of lines 22 to 25. *)
Fixpoint encode_columns (cols : list string) (df : DataFrame)
    (label_encoders : gmap string LabelEncoder)
  : result (DataFrame * gmap string LabelEncoder) :=
  match cols with
  | [] => Ok (df, label_encoders)
  | col :: rest =>
      values ← df_getitem df col;
      '(le, codes) ← fit_transform values;
      encode_columns rest
        (df_setitem df col (map (fun z => Num (inject_Z z)) codes))
        (<[col := le]> label_encoders)
  end.

Definition encoded_columns : list string :=
  ["Gender"; "Married"; "Education"; "Self_Employed"; "Property_Area";
   "Loan_Status"].

(** The whole of train_model.py: from what [pd.read_csv] returns to the two
    objects handed to [joblib.dump]. *)
Definition train_model (csv : result DataFrame)
  : result (RandomForestClassifier * gmap string LabelEncoder) :=
  df ← csv;
  df ← df_drop df "Loan_ID";
  df ← impute df;
  let df := df_replace_3plus df in
  '(df, label_encoders) ← encode_columns encoded_columns df ∅;
  X ← df_drop df "Loan_Status";
  y ← df_getitem df "Loan_Status";
  model ← fit_forest X y;
  Ok (model, label_encoders).

End Trainer.

(** ** The vocabulary of the statements *)

(** The frame a submission is turned into, from the five codes and the
    number of dependents. *)
Definition frame_of (f : form) (g m e s p d : Z) : DataFrame :=
  [("Gender", [Num (inject_Z g)]);
   ("Married", [Num (inject_Z m)]);
   ("Dependents", [Num (inject_Z d)]);
   ("Education", [Num (inject_Z e)]);
   ("Self_Employed", [Num (inject_Z s)]);
   ("ApplicantIncome", [Num (inject_Z (applicant_income f))]);
   ("CoapplicantIncome", [Num (inject_Z (coapplicant_income f))]);
   ("LoanAmount", [Num (inject_Z (loan_amount f))]);
   ("Loan_Amount_Term", [Num (inject_Z (loan_amount_term f))]);
   ("Credit_History", [Num (inject_Z (credit_history f))]);
   ("Property_Area", [Num (inject_Z p)])].

(** The eleven input widgets, as every run renders them. *)
Definition sidebar_inputs : list element :=
  [SidebarSelectbox "Gender"; SidebarSelectbox "Married";
   SidebarSelectbox "Dependents"; SidebarSelectbox "Education";
   SidebarSelectbox "Self Employed"; SidebarNumberInput "Applicant Income";
   SidebarNumberInput "Coapplicant Income";
   SidebarNumberInput "Loan Amount (in thousands)";
   SidebarSelectbox "Loan Amount Term (months)";
   SidebarSelectbox "Credit History"; SidebarSelectbox "Property Area"].

(** What the handler renders once the two calls on the model have
    returned. *)
Definition result_elements (f : form) (df : DataFrame) (prediction : Z)
    (proba : Q) : list element :=
  [Subheader "Prediction Result";
   if Z.eqb prediction 1 then LoanApproved proba else LoanNotApproved proba;
   Subheader "Loan Distribution Insights";
   Pyplot [Num (inject_Z (applicant_income f));
           Num (inject_Z (coapplicant_income f));
           Num (inject_Z (loan_amount f))];
   Subheader "User Input Summary";
   WriteFrame df;
   Subheader "Additional Insights";
   Write (if Z.eqb (credit_history f) 1
          then GoodCreditHistory else PoorCreditHistory)]
  ++ (if Z.ltb 8000 (applicant_income f) then [Write HighApplicantIncome] else [])
  ++ (if Z.ltb 300 (loan_amount f) then [Write LargeLoanAmount] else []).

(** A submission that gets its prediction: the artifacts load, the form is
    encoded into [df], the button is pressed and the two calls on the model
    return. *)
Definition predicted (disk : artifacts) (f : form) (df : DataFrame) : Prop :=
  ∃ model encs prediction proba,
    loan_model disk = Ok model ∧
    label_encoders_file disk = Ok encs ∧
    encode_form encs f = Ok df ∧
    predict_clicked f = true ∧
    predict_eligibility model df = Ok (prediction, proba).




(** [mode] is a most frequent observed value of [column]. *)
Definition is_mode (mode : cell) (column : list cell) : Prop :=
  mode ∈ observed column ∧
  ∀ x, x ∈ observed column →
       (count_occurrences x (observed column)
        <= count_occurrences mode (observed column))%nat.

(** The cells of a list are all strings, or all numbers. *)
Definition one_kind (l : list cell) : Prop :=
  Forall (fun c => ∃ s, c = Str s) l ∨ Forall (fun c => ∃ q, c = Num q) l.

(** ** Concrete artifacts and submissions *)

Definition encoder_of (labels : list string) : LabelEncoder :=
  {| classes_ := map Str labels |}.

(** The encoders fitted on a data set in which every label of the form
    occurs. *)
Definition full_encoders : gmap string LabelEncoder :=
  <["Gender" := encoder_of ["Female"; "Male"] ]>
  (<["Married" := encoder_of ["No"; "Yes"] ]>
  (<["Education" := encoder_of ["Graduate"; "Not Graduate"] ]>
  (<["Self_Employed" := encoder_of ["No"; "Yes"] ]>
  (<["Property_Area" := encoder_of ["Rural"; "Semiurban"; "Urban"] ]>
  (<["Loan_Status" := encoder_of ["N"; "Y"] ]> ∅))))).

(** The encoders fitted on a data set without any semi-urban property. *)
Definition two_area_encoders : gmap string LabelEncoder :=
  <["Property_Area" := encoder_of ["Rural"; "Urban"] ]> full_encoders.

(** The form as it first shows, with the button pressed. *)
Definition default_form : form :=
  {| gender := "Male"; married := "No"; dependents := "0";
     education := "Graduate"; self_employed := "No";
     applicant_income := 5000; coapplicant_income := 2000;
     loan_amount := 100; loan_amount_term := 360; credit_history := 1;
     property_area := "Urban"; predict_clicked := true |}.

Definition semiurban_form : form :=
  {| gender := "Male"; married := "No"; dependents := "0";
     education := "Graduate"; self_employed := "No";
     applicant_income := 5000; coapplicant_income := 2000;
     loan_amount := 100; loan_amount_term := 360; credit_history := 1;
     property_area := "Semiurban"; predict_clicked := true |}.

(** A forest of the default size, a hundred trees, half of which refuse
    every applicant and half of which approve every applicant. *)
Definition tied_forest : RandomForestClassifier :=
  {| rf_classes_ := [0; 1];
     estimators_ := replicate 50 (fun _ => [1%Q; 0%Q])
                    ++ replicate 50 (fun _ => [0%Q; 1%Q]) |}.

(** A forest of four trees, three of which approve every applicant. *)
Definition lenient_forest : RandomForestClassifier :=
  {| rf_classes_ := [0; 1];
     estimators_ := [(fun _ => [0%Q; 1%Q]); (fun _ => [(1#4)%Q; (3#4)%Q]);
                     (fun _ => [1%Q; 0%Q]); (fun _ => [0%Q; 1%Q])] |}.

Definition disk_with (rf : RandomForestClassifier)
    (label_encoders : gmap string LabelEncoder) : artifacts :=
  {| loan_model := Ok (forest_classifier rf);
     label_encoders_file := Ok label_encoders |}.

(** A small data set in the layout of loan_data_set.csv, as [pd.read_csv]
    returns it: four applications, some cells missing. *)
Definition sample_csv : DataFrame :=
  [("Loan_ID", [Str "LP001"; Str "LP002"; Str "LP003"; Str "LP004"]);
   ("Gender", [Str "Male"; Str "Male"; NaN; Str "Female"]);
   ("Married", [Str "No"; Str "Yes"; Str "Yes"; Str "No"]);
   ("Dependents", [Str "0"; Str "1"; Str "3+"; NaN]);
   ("Education", [Str "Graduate"; Str "Graduate"; Str "Not Graduate";
                  Str "Graduate"]);
   ("Self_Employed", [Str "No"; Str "No"; Str "Yes"; NaN]);
   ("ApplicantIncome", [Num 5849; Num 4583; Num 3000; Num 2583]);
   ("CoapplicantIncome", [Num 0; Num 1508; Num 0; Num (23585 # 10)]);
   ("LoanAmount", [NaN; Num 128; Num 66; Num 120]);
   ("Loan_Amount_Term", [Num 360; Num 360; Num 360; NaN]);
   ("Credit_History", [Num 1; Num 1; NaN; Num 0]);
   ("Property_Area", [Str "Urban"; Str "Rural"; Str "Urban";
                      Str "Semiurban"]);
   ("Loan_Status", [Str "Y"; Str "N"; Str "Y"; Str "N"])].

(** A fit that returns the same forest on every data set. *)
Definition constant_fit (rf : RandomForestClassifier)
  : DataFrame -> list cell -> result RandomForestClassifier :=
  fun _ _ => Ok rf.

(** The frame of the form as it first shows, under [full_encoders]. *)
Definition default_frame : DataFrame := frame_of default_form 1 0 0 0 2 0.

(** Encoders for Gender alone. *)
Definition gender_only_encoders : gmap string LabelEncoder :=
  <["Gender" := encoder_of ["Female"; "Male"] ]> ∅.

(** The classifier file is missing. *)
Definition disk_without_model : artifacts :=
  {| loan_model := Raise (OSError "No such file or directory: 'loan_model'");
     label_encoders_file := Ok full_encoders |}.

(** ** Further vocabulary: the options of the form and forms with a full
    set of encoders *)

(** The options of the five categorical select boxes (lines 26 to 36), under
    the name the encoding loop looks their encoder up by. *)
Definition form_options : list (string * list string) :=
  [("Gender", ["Male"; "Female"]);
   ("Married", ["No"; "Yes"]);
   ("Education", ["Graduate"; "Not Graduate"]);
   ("Self_Employed", ["No"; "Yes"]);
   ("Property_Area", ["Urban"; "Semiurban"; "Rural"])].

(** Every encoder registered under one of the five names knows every option
    of its select box. *)
Definition encoders_cover (encs : gmap string LabelEncoder) : Prop :=
  ∀ col options le o,
    (col, options) ∈ form_options →
    encs !! col = Some le →
    o ∈ options →
    is_Some (position (Str o) (classes_ le)).

(** An encoder is registered under each of the five names. *)
Definition all_registered (encs : gmap string LabelEncoder) : Prop :=
  ∀ col, col ∈ form_options.*1 → is_Some (encs !! col).

(** Two forms show the same eleven inputs. *)
Definition same_inputs (f f' : form) : Prop :=
  gender f = gender f' ∧ married f = married f' ∧
  dependents f = dependents f' ∧ education f = education f' ∧
  self_employed f = self_employed f' ∧
  applicant_income f = applicant_income f' ∧
  coapplicant_income f = coapplicant_income f' ∧
  loan_amount f = loan_amount f' ∧
  loan_amount_term f = loan_amount_term f' ∧
  credit_history f = credit_history f' ∧
  property_area f = property_area f'.

(** Two forms differ at most in categorical choices whose encoder is
    missing from [encs], and in the button. *)
Definition same_where_encoded (encs : gmap string LabelEncoder)
    (f f' : form) : Prop :=
  (encs !! "Gender" = None ∨ gender f = gender f') ∧
  (encs !! "Married" = None ∨ married f = married f') ∧
  (encs !! "Education" = None ∨ education f = education f') ∧
  (encs !! "Self_Employed" = None ∨ self_employed f = self_employed f') ∧
  (encs !! "Property_Area" = None ∨ property_area f = property_area f') ∧
  dependents f = dependents f' ∧
  applicant_income f = applicant_income f' ∧
  coapplicant_income f = coapplicant_income f' ∧
  loan_amount f = loan_amount f' ∧
  loan_amount_term f = loan_amount_term f' ∧
  credit_history f = credit_history f'.

(** A classifier whose [predict] raises. *)
Definition broken_classifier : classifier :=
  {| predict := fun _ => Raise (ValueError "X has 11 features, but the forest expects 12");
     predict_proba := fun _ => Ok [[(1#2)%Q; (1#2)%Q]] |}.

(** A forest fitted on a target in which every application was approved:
    one class only. *)
Definition one_class_forest : RandomForestClassifier :=
  {| rf_classes_ := [1];
     estimators_ := [(fun _ => [1%Q]); (fun _ => [1%Q])] |}.

(** The form as it first shows, the button not pressed. *)
Definition idle_form : form :=
  {| gender := "Male"; married := "No"; dependents := "0";
     education := "Graduate"; self_employed := "No";
     applicant_income := 5000; coapplicant_income := 2000;
     loan_amount := 100; loan_amount_term := 360; credit_history := 1;
     property_area := "Urban"; predict_clicked := false |}.

(** The form as it first shows but for the gender, the button pressed. *)
Definition female_form : form :=
  {| gender := "Female"; married := "No"; dependents := "0";
     education := "Graduate"; self_employed := "No";
     applicant_income := 5000; coapplicant_income := 2000;
     loan_amount := 100; loan_amount_term := 360; credit_history := 1;
     property_area := "Urban"; predict_clicked := true |}.

(** The full encoder set without the encoder for Gender. *)
Definition no_gender_encoders : gmap string LabelEncoder :=
  delete "Gender" full_encoders.

(** Artifacts whose classifier raises when called. *)
Definition broken_disk : artifacts :=
  {| loan_model := Ok broken_classifier;
     label_encoders_file := Ok full_encoders |}.

(** * Properties *)

(** ** Numbers and cells *)

Lemma Qeq_bool_inject_Z (a b : Z) :
  Qeq_bool (inject_Z a) (inject_Z b) = Z.eqb a b.
Proof.
  destruct (Z.eqb_spec a b) as [->|Hne].
  - apply Qeq_bool_iff. reflexivity.
  - destruct (Qeq_bool (inject_Z a) (inject_Z b)) eqn:E; [|reflexivity].
    apply Qeq_bool_iff in E. apply (proj1 (inject_Z_injective a b)) in E.
    congruence.
Qed.

Lemma Qle_bool_inject_Z (a b : Z) :
  Qle_bool (inject_Z a) (inject_Z b) = Z.leb a b.
Proof.
  unfold Qle_bool. simpl. rewrite !Z.mul_1_r. reflexivity.
Qed.

Lemma cell_eqb_Num_Z (a b : Z) :
  cell_eqb (Num (inject_Z a)) (Num (inject_Z b)) = Z.eqb a b.
Proof. apply Qeq_bool_inject_Z. Qed.

Lemma cell_ltb_Num_Z (a b : Z) :
  cell_ltb (Num (inject_Z a)) (Num (inject_Z b)) = Ok (Z.ltb a b).
Proof.
  simpl. rewrite Qle_bool_inject_Z, Z.ltb_antisym. reflexivity.
Qed.

(** ** The encoding of a submission *)

Ltac case_encode_label H :=
  match type of H with
  | context [encode_label ?encs ?col ?value] =>
      let E := fresh "E" in
      destruct (encode_label encs col value) eqn:E;
      cbn [mbind result_bind encode_categoricals] in H;
      [|discriminate H]
  end.

Lemma DataFrame_of_record_frame (f : form) (g m e s p d : Z) :
  DataFrame_of_record
    (<["Credit_History" := credit_history f]>
      (<["Loan_Amount_Term" := loan_amount_term f]>
         (<["LoanAmount" := loan_amount f]>
            (<["CoapplicantIncome" := coapplicant_income f]>
               (<["ApplicantIncome" := applicant_income f]>
                  (<["Dependents" := d]>
                     (<["Property_Area" := p]>
                        (<["Self_Employed" := s]>
                           (<["Education" := e]>
                              (<["Married" := m]>
                                 (<["Gender" := g]> ∅)))))))))))
    feature_order
  = frame_of f g m e s p d.
Proof.
  unfold DataFrame_of_record, feature_order, frame_of. cbn [map].
  repeat (f_equal; [by simplify_map_eq|]). reflexivity.
Qed.

Lemma encode_form_inv encs f df :
  encode_form encs f = Ok df →
  ∃ g m e s p d,
    encode_label encs "Gender" (gender f) = Ok g ∧
    encode_label encs "Married" (married f) = Ok m ∧
    encode_label encs "Education" (education f) = Ok e ∧
    encode_label encs "Self_Employed" (self_employed f) = Ok s ∧
    encode_label encs "Property_Area" (property_area f) = Ok p ∧
    normalize_dependents (PyStr (dependents f)) = Ok d ∧
    df = frame_of f g m e s p d.
Proof.
  unfold encode_form, categorical_inputs. cbn [zip zip_with encode_categoricals].
  intros H.
  do 5 case_encode_label H.
  destruct (normalize_dependents _) eqn:Ed;
    cbn [mbind result_bind] in H; [|discriminate H].
  injection H as <-.
  eexists _, _, _, _, _, _. repeat (split; [reflexivity|]).
  apply DataFrame_of_record_frame.
Qed.

Lemma encode_form_intro encs f g m e s p d :
  encode_label encs "Gender" (gender f) = Ok g →
  encode_label encs "Married" (married f) = Ok m →
  encode_label encs "Education" (education f) = Ok e →
  encode_label encs "Self_Employed" (self_employed f) = Ok s →
  encode_label encs "Property_Area" (property_area f) = Ok p →
  normalize_dependents (PyStr (dependents f)) = Ok d →
  encode_form encs f = Ok (frame_of f g m e s p d).
Proof.
  intros Hg Hm He Hs Hp Hd.
  unfold encode_form, categorical_inputs. cbn [zip zip_with encode_categoricals].
  rewrite Hg. cbn [mbind result_bind encode_categoricals].
  rewrite Hm. cbn [mbind result_bind encode_categoricals].
  rewrite He. cbn [mbind result_bind encode_categoricals].
  rewrite Hs. cbn [mbind result_bind encode_categoricals].
  rewrite Hp. cbn [mbind result_bind encode_categoricals].
  rewrite Hd. cbn [mbind result_bind].
  rewrite DataFrame_of_record_frame. reflexivity.
Qed.

Lemma encode_label_spec encs col value code :
  encode_label encs col value = Ok code →
  match encs !! col with
  | None => code = 0
  | Some le => transform le [Str value] = Ok [code]
  end.
Proof.
  unfold encode_label. destruct (encs !! col) as [le|]; [|congruence].
  cbn [transform]. destruct (position _ _) as [i|]; [|discriminate].
  cbn. congruence.
Qed.

Lemma user_input_features_run encs f :
  user_input_features encs f =
  Script sidebar_inputs
         match encode_form encs f with
         | Ok df => Return df
         | Raise e => Raised e
         end.
Proof.
  unfold user_input_features. destruct (encode_form encs f); reflexivity.
Qed.

Lemma user_input_features_returns encs f df :
  ending (user_input_features encs f) = Return df ↔ encode_form encs f = Ok df.
Proof.
  rewrite user_input_features_run. cbn [ending].
  destruct (encode_form encs f); split; intros [=]; subst; reflexivity.
Qed.

(** ** A run whose artifacts load *)

Lemma bind_Return {A B} (a : A) (k : A → script B) :
  Script [] (Return a) ≫= k = k a.
Proof. cbn. destruct (k a). reflexivity. Qed.

Lemma app_loaded disk model encs f :
  loan_model disk = Ok model →
  label_encoders_file disk = Ok encs →
  app disk f =
  (_ ← render (Title "Loan Eligibility Prediction System");
   _ ← render (SidebarHeader "User Input Features");
   input_df ← user_input_features encs f;
   clicked ← widget (SidebarButton "Predict Eligibility") (predict_clicked f);
   if clicked : bool then prediction_handler model input_df else mret tt).
Proof.
  intros Hm He. unfold app, load_artifacts. rewrite Hm, He.
  cbn [lift]. rewrite !bind_Return. unfold mret, script_ret, try_except.
  rewrite bind_Return. reflexivity.
Qed.

Lemma app_submitted disk model encs f df :
  loan_model disk = Ok model →
  label_encoders_file disk = Ok encs →
  encode_form encs f = Ok df →
  predict_clicked f = true →
  app disk f =
  Script (Title "Loan Eligibility Prediction System"
          :: SidebarHeader "User Input Features"
          :: sidebar_inputs
          ++ SidebarButton "Predict Eligibility"
          :: rendered (prediction_handler model df))
         (ending (prediction_handler model df)).
Proof.
  intros Hm He Hdf Hc. rewrite (app_loaded _ _ _ _ Hm He).
  rewrite user_input_features_run, Hdf, Hc.
  cbn [mbind script_bind render widget].
  destruct (prediction_handler model df). reflexivity.
Qed.

Lemma prediction_handler_returns model f g m e s p d prediction proba :
  predict_eligibility model (frame_of f g m e s p d) = Ok (prediction, proba) →
  prediction_handler model (frame_of f g m e s p d) =
  Script (result_elements f (frame_of f g m e s p d) prediction proba)
         (Return tt).
Proof.
  intros H. unfold prediction_handler, prediction_body, additional_insights.
  rewrite H. unfold result_elements.
  change (first_of (frame_of f g m e s p d) "ApplicantIncome")
    with (Ok (Num (inject_Z (applicant_income f)))).
  change (first_of (frame_of f g m e s p d) "CoapplicantIncome")
    with (Ok (Num (inject_Z (coapplicant_income f)))).
  change (first_of (frame_of f g m e s p d) "LoanAmount")
    with (Ok (Num (inject_Z (loan_amount f)))).
  change (first_of (frame_of f g m e s p d) "Credit_History")
    with (Ok (Num (inject_Z (credit_history f)))).
  change (Num 1) with (Num (inject_Z 1)).
  change (Num 8000) with (Num (inject_Z 8000)).
  change (Num 300) with (Num (inject_Z 300)).
  cbn [mbind script_bind lift render].
  rewrite cell_eqb_Num_Z, !cell_ltb_Num_Z.
  destruct (Z.eqb prediction 1), (Z.eqb (credit_history f) 1),
    (Z.ltb 8000 (applicant_income f)), (Z.ltb 300 (loan_amount f));
    reflexivity.
Qed.

Lemma insights_of_result_elements f df prediction proba :
  insights_of (result_elements f df prediction proba) =
  [if Z.eqb (credit_history f) 1 then GoodCreditHistory else PoorCreditHistory]
  ++ (if Z.ltb 8000 (applicant_income f) then [HighApplicantIncome] else [])
  ++ (if Z.ltb 300 (loan_amount f) then [LargeLoanAmount] else []).
Proof.
  unfold result_elements, insights_of.
  destruct (Z.eqb prediction 1), (Z.ltb 8000 (applicant_income f)),
    (Z.ltb 300 (loan_amount f)); reflexivity.
Qed.

Lemma predicted_insights disk f df :
  predicted disk f df →
  insights_of (rendered (app disk f)) =
  [if Z.eqb (credit_history f) 1 then GoodCreditHistory else PoorCreditHistory]
  ++ (if Z.ltb 8000 (applicant_income f) then [HighApplicantIncome] else [])
  ++ (if Z.ltb 300 (loan_amount f) then [LargeLoanAmount] else []).
Proof.
  intros (model & encs & y & pr & Hm & He & Hdf & Hc & Hp).
  rewrite (app_submitted _ _ _ _ _ Hm He Hdf Hc).
  destruct (encode_form_inv _ _ _ Hdf)
    as (g & m & e & s & p & d & _ & _ & _ & _ & _ & _ & ->).
  rewrite (prediction_handler_returns _ _ _ _ _ _ _ _ _ _ Hp).
  cbn [rendered].
  change (insights_of (?a :: ?b :: sidebar_inputs ++ ?c :: ?l))
    with (insights_of l).
  apply insights_of_result_elements.
Qed.

Lemma encoding_error_escapes disk model encs f e :
  loan_model disk = Ok model →
  label_encoders_file disk = Ok encs →
  encode_form encs f = Raise e →
  app disk f =
  Script (Title "Loan Eligibility Prediction System"
          :: SidebarHeader "User Input Features" :: sidebar_inputs)
         (Raised e).
Proof.
  intros Hm He Hdf. rewrite (app_loaded _ _ _ _ Hm He).
  rewrite user_input_features_run, Hdf. reflexivity.
Qed.

(** Membership in a list that is written out. *)
Ltac list_mem :=
  rewrite ?elem_of_cons, ?elem_of_nil in *;
  intuition (congruence || lia).

(** ** The claims on the Predictor *)

(** C1 (the code departs from the claim).  A label that its encoder has not
    seen makes [transform] raise while [user_input_features] runs, at line 58,
    before the button and outside both [try] blocks: the exception leaves
    the script.  No "Error during prediction" message is rendered, and the
    button is not rendered in that run either.  Shown on the encoders of a
    data set without semi-urban properties and the choice "Semiurban". *)
Theorem C1_unseen_label_leaves_the_script_uncaught :
  app (disk_with lenient_forest two_area_encoders) semiurban_form =
  Script (Title "Loan Eligibility Prediction System"
          :: SidebarHeader "User Input Features" :: sidebar_inputs)
         (Raised (ValueError "y contains previously unseen labels")).
Proof.
  apply (encoding_error_escapes _ (forest_classifier lenient_forest)
           two_area_encoders); reflexivity.
Qed.

(** C2.  When [user_input_features] returns a frame, each of the five
    categorical columns Gender, Married, Education, Self_Employed and
    Property_Area holds 0 if the encoder set has no encoder under that name,
    and otherwise the code that the registered encoder gives to the
    submitted label. *)
Theorem C2_missing_encoder_defaults_to_zero
    (encs : gmap string LabelEncoder) (f : form) (df : DataFrame) :
  ending (user_input_features encs f) = Return df →
  Forall (fun '(col, value) =>
            match encs !! col with
            | None => first_of df col = Ok (Num (inject_Z 0))
            | Some le =>
                ∃ code, transform le [Str value] = Ok [code] ∧
                        first_of df col = Ok (Num (inject_Z code))
            end)
         (categorical_inputs f).
Proof.
  intros H. apply user_input_features_returns in H.
  destruct (encode_form_inv _ _ _ H)
    as (g & m & e & s & p & d & Hg & Hm & He & Hs & Hp & _ & ->).
  apply encode_label_spec in Hg, Hm, He, Hs, Hp.
  unfold categorical_inputs. cbn [zip zip_with].
  repeat apply Forall_cons_2; [..|apply Forall_nil_2].
  - destruct (encs !! "Gender"); [eexists; split; [eassumption|]|subst]; reflexivity.
  - destruct (encs !! "Married"); [eexists; split; [eassumption|]|subst]; reflexivity.
  - destruct (encs !! "Education"); [eexists; split; [eassumption|]|subst]; reflexivity.
  - destruct (encs !! "Self_Employed"); [eexists; split; [eassumption|]|subst]; reflexivity.
  - destruct (encs !! "Property_Area"); [eexists; split; [eassumption|]|subst]; reflexivity.
Qed.

(** C3.  The frame that [user_input_features] returns has exactly the columns
    of [feature_order], in that order, each holding one number; when the
    button is pressed, it is this frame that the handler passes to the
    classifier. *)
Theorem C3_feature_vector_in_schema_order
    (disk : artifacts) (model : classifier) (encs : gmap string LabelEncoder)
    (f : form) (df : DataFrame) :
  loan_model disk = Ok model →
  label_encoders_file disk = Ok encs →
  ending (user_input_features encs f) = Return df →
  columns df =
    ["Gender"; "Married"; "Dependents"; "Education"; "Self_Employed";
     "ApplicantIncome"; "CoapplicantIncome"; "LoanAmount";
     "Loan_Amount_Term"; "Credit_History"; "Property_Area"] ∧
  columns df = feature_order ∧
  Forall (fun column => ∃ z, column.2 = [Num (inject_Z z)]) df ∧
  (predict_clicked f = true →
   app disk f =
   Script (Title "Loan Eligibility Prediction System"
           :: SidebarHeader "User Input Features"
           :: sidebar_inputs
           ++ SidebarButton "Predict Eligibility"
           :: rendered (prediction_handler model df))
          (ending (prediction_handler model df))).
Proof.
  intros Hm He H. apply user_input_features_returns in H.
  destruct (encode_form_inv _ _ _ H)
    as (g & m & e & s & p & d & _ & _ & _ & _ & _ & _ & Hdf).
  split; [|split; [|split]].
  - subst df. reflexivity.
  - subst df. reflexivity.
  - subst df. unfold frame_of.
    repeat apply Forall_cons_2; [..|apply Forall_nil_2]; eexists; reflexivity.
  - intros Hc. apply (app_submitted _ _ encs); assumption.
Qed.

(** C5.  For a submission that gets its prediction, exactly one of the two
    credit-history lines is written: the "good credit history" line if and
    only if Credit_History is 1, the "poor credit history" line if and only
    if it is 0, and never both. *)
Theorem C5_exactly_one_credit_history_flag
    (disk : artifacts) (f : form) (df : DataFrame) :
  predicted disk f df →
  form_valid f →
  let shown := insights_of (rendered (app disk f)) in
  (GoodCreditHistory ∈ shown ↔ credit_history f = 1) ∧
  (PoorCreditHistory ∈ shown ↔ credit_history f = 0) ∧
  ¬ (GoodCreditHistory ∈ shown ∧ PoorCreditHistory ∈ shown) ∧
  length (List.filter
            (fun i => bool_decide (i ∈ [GoodCreditHistory; PoorCreditHistory]))
            shown) = 1%nat.
Proof.
  intros Hp Hv shown. subst shown. rewrite (predicted_insights _ _ _ Hp).
  destruct Hv as (_ & _ & _ & _ & _ & _ & _ & _ & _ & Hc & _).
  assert (credit_history f = 1 ∨ credit_history f = 0) as Hc' by list_mem.
  clear Hc.
  destruct (Z.ltb 8000 (applicant_income f)), (Z.ltb 300 (loan_amount f));
    destruct Hc' as [-> | ->]; cbn;
    (split; [|split; [|split]]); try reflexivity; list_mem.
Qed.

(** C6.  For a submission that gets its prediction, the "high income" line is
    written if and only if ApplicantIncome > 8000 and the "large loan" line
    if and only if LoanAmount > 300; the lines written depend on the row
    alone: any other submission with the same row, whatever the artifacts and
    whatever was submitted before it in its session, gets the same lines. *)
Theorem C6_income_and_loan_flags_depend_on_the_row_alone
    (disk : artifacts) (f : form) (df : DataFrame) :
  predicted disk f df →
  let shown := insights_of (rendered (app disk f)) in
  (HighApplicantIncome ∈ shown ↔ 8000 < applicant_income f) ∧
  (LargeLoanAmount ∈ shown ↔ 300 < loan_amount f) ∧
  (∀ history disk' f',
     predicted disk' f' df →
     (fun run => insights_of (rendered run))
       <$> last (session (history ++ [(disk', f')])) = Some shown).
Proof.
  intros Hp shown. subst shown. rewrite (predicted_insights _ _ _ Hp).
  split; [|split].
  - destruct (Z.ltb_spec 8000 (applicant_income f)),
      (Z.ltb 300 (loan_amount f)), (Z.eqb (credit_history f) 1);
      cbn; list_mem.
  - destruct (Z.ltb 8000 (applicant_income f)),
      (Z.ltb_spec 300 (loan_amount f)), (Z.eqb (credit_history f) 1);
      cbn; list_mem.
  - intros history disk' f' Hp'.
    unfold session. rewrite map_app. cbn [map]. rewrite last_snoc.
    cbn [fmap option_fmap option_map].
    rewrite (predicted_insights _ _ _ Hp'). f_equal.
    destruct Hp as (_ & encs & _ & _ & _ & _ & Hdf & _).
    destruct Hp' as (_ & encs' & _ & _ & _ & _ & Hdf' & _).
    apply encode_form_inv in Hdf, Hdf'.
    destruct Hdf as (g & m & e & s & p & d & _ & _ & _ & _ & _ & _ & Hdf).
    destruct Hdf' as (g' & m' & e' & s' & p' & d' & _ & _ & _ & _ & _ & _ & Hdf').
    rewrite Hdf in Hdf'. unfold frame_of, inject_Z in Hdf'.
    injection Hdf' as _ _ _ _ _ -> _ -> _ -> _. reflexivity.
Qed.

(** C7.  The dependents normalisation sends "3+" to 3 and each of "0", "1"
    and "2" to the integer it spells; applied again to its own result it
    returns that result, so that "3+" goes to 3 and 3 goes to 3.  In the
    Trainer, replacing "3+" by 3 is idempotent as well. *)
Theorem C7_dependents_normalisation_idempotent :
  normalize_dependents (PyStr "3+") = Ok 3 ∧
  normalize_dependents (PyStr "0") = Ok 0 ∧
  normalize_dependents (PyStr "1") = Ok 1 ∧
  normalize_dependents (PyStr "2") = Ok 2 ∧
  (∀ s, s ∈ ["0"; "1"; "2"] →
        normalize_dependents (PyStr s) = py_int (PyStr s)) ∧
  normalize_dependents (PyInt 3) = Ok 3 ∧
  (∀ v, (z ← normalize_dependents v; normalize_dependents (PyInt z))
        = normalize_dependents v) ∧
  replace_3plus (Str "3+") = Num 3 ∧
  (∀ c, replace_3plus (replace_3plus c) = replace_3plus c).
Proof.
  do 4 (split; [reflexivity|]).
  split; [|split; [reflexivity|split; [|split; [reflexivity|]]]].
  - intros s Hs.
    assert (s = "0" ∨ s = "1" ∨ s = "2") as [-> | [-> | ->]] by list_mem;
      reflexivity.
  - intros v. destruct (normalize_dependents v); reflexivity.
  - intros c. unfold replace_3plus.
    destruct (cell_eqb c (Str "3+")) eqn:E; [reflexivity|].
    rewrite E. reflexivity.
Qed.

(** C9.  If loading the classifier fails, or the classifier loads and
    loading the encoder set fails, the run renders the loading error and
    nothing else, and it is stopped there: no input widget, no button and no
    prediction. *)
Theorem C9_failed_load_stops_the_run
    (disk : artifacts) (f : form) (e : exn) :
  loan_model disk = Raise e ∨
  (∃ model, loan_model disk = Ok model ∧ label_encoders_file disk = Raise e) →
  app disk f = Script [ErrorLoadingModel e] Stopped.
Proof.
  intros [H | (model & Hm & He)]; unfold app, load_artifacts.
  - rewrite H. reflexivity.
  - rewrite Hm, He. reflexivity.
Qed.

(** ** The forest's vote *)





Lemma rows_frame_of f g m e s p d :
  rows (frame_of f g m e s p d) = [row (frame_of f g m e s p d) 0].
Proof. reflexivity. Qed.





(** ** The Trainer: imputation *)

Lemma mapM_Ok_Forall2 {A B} (f : A → result B) (l : list A) (r : list B) :
  mapM f l = Ok r → Forall2 (fun a b => f a = Ok b) l r.
Proof.
  revert r. induction l as [|a l IH]; intros r H; cbn in H.
  - injection H as <-. constructor.
  - destruct (f a) as [b|] eqn:Ea; [|discriminate H]. cbn in H.
    destruct (mapM f l) as [k|]; [|discriminate H]. cbn in H.
    injection H as <-. constructor; [exact Ea|apply IH; reflexivity].
Qed.

Lemma omap_id_length_le {A} (l : list (option A)) :
  (length (omap id l) <= length l)%nat.
Proof.
  induction l as [|[a|] l IH]; cbn in *; lia.
Qed.

Lemma omap_id_full {A} (l : list (option A)) :
  length (omap id l) = length l →
  Forall2 (fun o v => o = Some v) l (omap id l).
Proof.
  induction l as [|[a|] l IH]; cbn; intros H.
  - constructor.
  - constructor; [reflexivity|]. apply IH. lia.
  - pose proof (omap_id_length_le l). lia.
Qed.

Lemma count_le_most_frequent_count (x : cell) (l obs : list cell) :
  x ∈ obs →
  (count_occurrences x l
   <= foldr (fun y acc => Nat.max (count_occurrences y l) acc) O obs)%nat.
Proof.
  induction 1 as [x obs|x y obs _ IH]; cbn [foldr]; lia.
Qed.

Lemma py_min_from_elem (best : cell) (l : list cell) (r : cell) :
  py_min_from best l = Ok r → r ∈ best :: l.
Proof.
  revert best. induction l as [|x l IH]; intros best H; cbn in H.
  - injection H as <-. apply list_elem_of_here.
  - destruct (cell_ltb x best) as [[]|]; [| |discriminate H]; cbn in H;
      apply IH in H; list_mem.
Qed.

Lemma observed_not_nan (column : list cell) (c : cell) :
  c ∈ observed column → is_nan c = false.
Proof.
  unfold observed. rewrite list_elem_of_In, List.filter_In.
  intros [_ H]. destruct (is_nan c); [discriminate H|reflexivity].
Qed.

Lemma most_frequent_is_mode (column : list cell) (s : cell) :
  most_frequent column = Ok s →
  is_nan s = false →
  is_mode s column.
Proof.
  unfold most_frequent, is_mode.
  set (obs := observed column).
  set (n := most_frequent_count obs).
  destruct (List.filter _ obs) as [|x rest] eqn:Ec; intros H Hs.
  - injection H as <-. discriminate Hs.
  - apply py_min_from_elem in H. rewrite <- Ec in H.
    apply list_elem_of_In, List.filter_In in H. destruct H as [Hin Hcount].
    apply Nat.eqb_eq in Hcount.
    split; [apply list_elem_of_In; exact Hin|].
    intros y Hy. rewrite Hcount. subst n. unfold most_frequent_count.
    apply count_le_most_frequent_count, Hy.
Qed.

Lemma fill_no_nan (s : cell) (column : list cell) :
  is_nan s = false → Forall (fun c => is_nan c = false) (fill s column).
Proof.
  intros Hs. unfold fill. apply Forall_forall. intros c Hc.
  apply list_elem_of_In, in_map_iff in Hc. destruct Hc as (c0 & <- & _).
  destruct (is_nan c0) eqn:E; assumption.
Qed.

Lemma impute_column_Some (column values : list cell) :
  impute_column column = Ok (Some values) →
  ∃ s, is_mode s column ∧ is_nan s = false ∧ values = fill s column.
Proof.
  unfold impute_column. destruct (most_frequent column) as [s|] eqn:Es;
    [|discriminate]. cbn.
  destruct (is_nan s) eqn:En; [discriminate|]. intros [= <-].
  exists s. split; [apply most_frequent_is_mode; assumption|]. split; auto.
Qed.

Lemma impute_inv (df df' : DataFrame) :
  impute df = Ok df' →
  Forall2 (fun old new =>
             new.1 = old.1 ∧
             ∃ s, is_mode s old.2 ∧ is_nan s = false ∧ new.2 = fill s old.2)
          df df'.
Proof.
  unfold impute, SimpleImputer_fit_transform, iloc_assign.
  destruct (Nat.eqb (n_rows df) 0); [discriminate|].
  destruct (mapM impute_column df.*2) as [imputed|] eqn:Em; [|discriminate].
  cbn [mbind result_bind].
  destruct (Nat.eqb_spec (length (omap id imputed)) (length df)) as [Hlen|];
    [|discriminate].
  intros [= <-].
  apply mapM_Ok_Forall2 in Em.
  assert (length imputed = length df) as Hl.
  { apply Forall2_length in Em. rewrite length_fmap in Em. congruence. }
  assert (Forall2 (fun o v => o = Some v) imputed (omap id imputed)) as Hfull.
  { apply omap_id_full. congruence. }
  clear Hlen Hl. revert Em Hfull. generalize (omap id imputed) as array.
  revert imputed. induction df as [|[name column] df IH]; intros imputed array Em Hfull.
  - inversion Em; subst. inversion Hfull; subst. constructor.
  - inversion Em as [|? o ? imputed' Ho Em']; subst.
    inversion Hfull as [|? values ? array' Hv Hfull']; subst.
    cbn [zip_with]. constructor.
    + split; [reflexivity|]. apply impute_column_Some. exact Ho.
    + apply (IH imputed'); assumption.
Qed.

Lemma py_min_from_one_kind (best : cell) (l : list cell) :
  one_kind (best :: l) → ∃ r, py_min_from best l = Ok r.
Proof.
  revert best. induction l as [|x l IH]; intros best Hk; cbn.
  - eexists; reflexivity.
  - assert (∃ b, cell_ltb x best = Ok b ∧ one_kind ((if b : bool then x else best) :: l))
      as (b & -> & Hk').
    { destruct Hk as [Hk|Hk];
        inversion Hk as [|? ? [? ->] Hk1]; subst;
        inversion Hk1 as [|? ? [? ->] Hk2]; subst;
        (eexists; split; [reflexivity|]);
        [left|right]; constructor; try assumption;
        match goal with |- context [if ?c then _ else _] => destruct c end;
        eexists; reflexivity. }
    cbn. apply IH, Hk'.
Qed.

Lemma most_frequent_count_attained (l obs : list cell) :
  obs ≠ [] →
  ∃ x, x ∈ obs ∧
       count_occurrences x l =
       foldr (fun y acc => Nat.max (count_occurrences y l) acc) O obs.
Proof.
  induction obs as [|y obs IH]; [congruence|]. intros _. cbn [foldr].
  destruct obs as [|z obs].
  - exists y. split; [apply list_elem_of_here|]. cbn. lia.
  - destruct IH as (x & Hx & Hc); [congruence|].
    destruct (Nat.max_spec (count_occurrences y l)
                (foldr (fun y acc => Nat.max (count_occurrences y l) acc) O (z :: obs)))
      as [[_ ->]|[_ ->]].
    + exists x. split; [apply list_elem_of_further, Hx|exact Hc].
    + exists y. split; [apply list_elem_of_here|reflexivity].
Qed.

Lemma one_kind_filter (P : cell → bool) (l : list cell) :
  one_kind l → one_kind (List.filter P l).
Proof.
  intros [H|H]; [left|right]; apply Forall_forall; intros c Hc;
    apply list_elem_of_In, List.filter_In in Hc; destruct Hc as [Hc _];
    rewrite Forall_forall in H; apply H, list_elem_of_In, Hc.
Qed.

Lemma impute_column_succeeds (column : list cell) :
  observed column ≠ [] →
  one_kind (observed column) →
  ∃ values, impute_column column = Ok (Some values).
Proof.
  intros Hne Hk. unfold impute_column, most_frequent.
  set (obs := observed column) in *.
  destruct (most_frequent_count_attained obs obs Hne) as (x & Hx & Hc).
  destruct (List.filter _ obs) as [|y rest] eqn:Ef.
  - exfalso. assert (List.In x []) as []. rewrite <- Ef.
    apply List.filter_In. split; [apply list_elem_of_In, Hx|].
    apply Nat.eqb_eq. exact Hc.
  - destruct (py_min_from_one_kind y rest) as (r & Hr).
    { rewrite <- Ef. apply one_kind_filter, Hk. }
    rewrite Hr. cbn.
    assert (is_nan r = false) as ->.
    { apply py_min_from_elem in Hr. rewrite <- Ef in Hr.
      apply list_elem_of_In, List.filter_In in Hr. destruct Hr as [Hr _].
      apply (observed_not_nan column), list_elem_of_In, Hr. }
    eexists; reflexivity.
Qed.

(** Imputation goes through on a frame with at least one row when every
    column has an observed value and holds values of one kind only. *)
Lemma impute_succeeds (df : DataFrame) :
  n_rows df ≠ O →
  Forall (fun column => observed column.2 ≠ [] ∧ one_kind (observed column.2)) df →
  ∃ df', impute df = Ok df'.
Proof.
  intros Hrows Hcols. unfold impute, SimpleImputer_fit_transform.
  destruct (Nat.eqb_spec (n_rows df) 0) as [|_]; [contradiction|].
  assert (∃ array, mapM impute_column df.*2 = Ok (Some <$> array) ∧
                   length array = length df) as (array & -> & Hlen).
  { clear Hrows. induction Hcols as [|[name column] df [Hne Hk] _ IH].
    - exists []. split; reflexivity.
    - destruct IH as (array & IH & Hlen).
      destruct (impute_column_succeeds column Hne Hk) as (values & Hv).
      exists (values :: array). cbn [fmap list_fmap mapM].
      cbn [snd] in *. rewrite Hv. cbn [mbind result_bind].
      change (list_fmap _ _ snd df) with (df.*2). rewrite IH.
      cbn. split; [reflexivity|]. lia. }
  cbn [mbind result_bind]. unfold iloc_assign.
  assert (omap id (Some <$> array) = array) as ->.
  { clear Hlen. induction array as [|v array IH]; cbn; congruence. }
  rewrite Hlen, Nat.eqb_refl. eexists; reflexivity.
Qed.

(** C8.  When the imputation step of the Trainer completes, the frame keeps
    its columns; each column is imputed on its own: its missing values are
    replaced by a most frequent observed value of that same column and its
    other values are kept; and no missing value remains in any column. *)
Theorem C8_imputation_leaves_no_missing_value (df df' : DataFrame) :
  impute df = Ok df' →
  columns df' = columns df ∧
  Forall2 (fun old new =>
             ∃ mode, is_mode mode old.2 ∧
                     new.2 = map (fun c => if is_nan c then mode else c) old.2)
          df df' ∧
  Forall (fun column => Forall (fun c => is_nan c = false) column.2) df'.
Proof.
  intros H. apply impute_inv in H.
  induction H as [|old new df df' (Hname & s & Hmode & Hs & Hfill) _ IH].
  - repeat split; constructor.
  - destruct IH as (Hcols & Hall & Hnan).
    split; [|split].
    + unfold columns in *. cbn. congruence.
    + constructor; [|exact Hall]. exists s. split; [exact Hmode|exact Hfill].
    + constructor; [|exact Hnan]. rewrite Hfill. apply fill_no_nan, Hs.
Qed.

(** ** The Trainer: the encoder set *)

Lemma encode_columns_dom (cols : list string) (df df' : DataFrame)
    (encs encs' : gmap string LabelEncoder) :
  encode_columns cols df encs = Ok (df', encs') →
  dom encs' = dom encs ∪ list_to_set cols.
Proof.
  revert df encs. induction cols as [|col cols IH]; intros df encs H; cbn in H.
  - injection H as _ <-. rewrite list_to_set_nil, union_empty_r_L. reflexivity.
  - destruct (df_getitem df col) as [values|]; [|discriminate H]. cbn in H.
    destruct (fit_transform values) as [[le codes]|]; [|discriminate H].
    cbn in H. apply IH in H. rewrite H, dom_insert_L, list_to_set_cons.
    rewrite (comm_L (∪) {[col]} (dom encs)), (assoc_L (∪)). reflexivity.
Qed.

Lemma train_model_encoders fit_forest csv model label_encoders :
  train_model fit_forest csv = Ok (model, label_encoders) →
  dom label_encoders = list_to_set encoded_columns.
Proof.
  unfold train_model. intros H.
  destruct csv as [df0|]; [|discriminate H]. cbn [mbind result_bind] in H.
  destruct (df_drop df0 "Loan_ID") as [df1|]; [|discriminate H].
  cbn [mbind result_bind] in H.
  destruct (impute df1) as [df2|]; [|discriminate H].
  cbn [mbind result_bind] in H.
  destruct (encode_columns encoded_columns (df_replace_3plus df2) ∅)
    as [[df3 encs]|] eqn:Ee; [|discriminate H].
  cbn [mbind result_bind] in H.
  destruct (df_drop df3 "Loan_Status") as [X|]; [|discriminate H].
  cbn [mbind result_bind] in H.
  destruct (df_getitem df3 "Loan_Status") as [y|]; [|discriminate H].
  cbn [mbind result_bind] in H.
  destruct (fit_forest X y) as [rf|]; [|discriminate H].
  cbn [mbind result_bind] in H. injection H as _ <-.
  apply encode_columns_dom in Ee. rewrite Ee, dom_empty_L, union_empty_l_L.
  reflexivity.
Qed.

Lemma encode_form_agree (encs encs' : gmap string LabelEncoder) (f : form) :
  (∀ col, col ∈ (categorical_inputs f).*1 → encs !! col = encs' !! col) →
  encode_form encs f = encode_form encs' f.
Proof.
  intros H. unfold encode_form, categorical_inputs in *.
  cbn [zip zip_with fmap list_fmap fst] in H.
  cbn [zip zip_with encode_categoricals]. unfold encode_label.
  rewrite (H "Gender"), (H "Married"), (H "Education"),
    (H "Self_Employed"), (H "Property_Area") by list_mem.
  reflexivity.
Qed.

(** C10.  The encoder set that the Trainer persists has an encoder under
    exactly the six names Gender, Married, Education, Self_Employed,
    Property_Area and Loan_Status, and so none under Dependents; and what
    [user_input_features] does is the same whatever the encoder set holds
    outside the five categorical names of the form: in particular an encoder
    added under or removed from Dependents, ApplicantIncome,
    CoapplicantIncome, LoanAmount, Loan_Amount_Term or Credit_History changes
    nothing. *)
Theorem C10_encoders_for_the_six_label_columns_only
    (fit_forest : DataFrame → list cell → result RandomForestClassifier)
    (csv : result DataFrame) (model : RandomForestClassifier)
    (label_encoders : gmap string LabelEncoder) :
  train_model fit_forest csv = Ok (model, label_encoders) →
  dom label_encoders =
    {["Gender"; "Married"; "Education"; "Self_Employed"; "Property_Area";
      "Loan_Status"]} ∧
  label_encoders !! "Dependents" = None ∧
  (∀ encs encs' f,
     (∀ col, col ∈ ["Gender"; "Married"; "Education"; "Self_Employed";
                    "Property_Area"] → encs !! col = encs' !! col) →
     user_input_features encs f = user_input_features encs' f) ∧
  (∀ col le f,
     col ∈ ["Dependents"; "ApplicantIncome"; "CoapplicantIncome";
            "LoanAmount"; "Loan_Amount_Term"; "Credit_History"] →
     user_input_features (<[col := le]> label_encoders) f
       = user_input_features label_encoders f ∧
     user_input_features (delete col label_encoders) f
       = user_input_features label_encoders f).
Proof.
  intros H. apply train_model_encoders in H.
  assert (∀ encs encs' f,
     (∀ col, col ∈ ["Gender"; "Married"; "Education"; "Self_Employed";
                    "Property_Area"] → encs !! col = encs' !! col) →
     user_input_features encs f = user_input_features encs' f) as Hagree.
  { intros encs encs' f Hsame. rewrite !user_input_features_run.
    rewrite (encode_form_agree encs encs' f); [reflexivity|].
    intros col Hcol. apply Hsame. exact Hcol. }
  split; [|split; [|split]].
  - rewrite H. vm_compute. reflexivity.
  - apply not_elem_of_dom. rewrite H. unfold encoded_columns. cbn.
    rewrite !elem_of_union, !elem_of_singleton, elem_of_empty.
    intuition discriminate.
  - exact Hagree.
  - intros col le f Hcol. split; apply Hagree; intros c Hc.
    + apply lookup_insert_ne. intros ->. list_mem.
    + apply lookup_delete_ne. intros ->. list_mem.
Qed.

(** ** The claims at concrete submissions *)

Ltac elem_of_list :=
  repeat first [apply list_elem_of_here | apply list_elem_of_further].

Lemma default_form_valid : form_valid default_form.
Proof.
  unfold form_valid, default_form; cbn.
  repeat split; try lia; elem_of_list.
Defined.

Lemma default_form_predicted :
  predicted (disk_with lenient_forest full_encoders) default_form default_frame.
Proof.
  exists (forest_classifier lenient_forest), full_encoders.
  eexists _, _. repeat split; reflexivity.
Defined.


(** With an encoder for Gender only, "Male" gets its code 1 and the four
    other categorical columns get 0. *)
Lemma C2_witness :
  ending (user_input_features gender_only_encoders default_form)
    = Return (frame_of default_form 1 0 0 0 0 0) ∧
  Forall (fun '(col, value) =>
            match gender_only_encoders !! col with
            | None => first_of (frame_of default_form 1 0 0 0 0 0) col
                      = Ok (Num (inject_Z 0))
            | Some le =>
                ∃ code, transform le [Str value] = Ok [code] ∧
                        first_of (frame_of default_form 1 0 0 0 0 0) col
                        = Ok (Num (inject_Z code))
            end)
         (categorical_inputs default_form).
Proof.
  split; [reflexivity|].
  apply (C2_missing_encoder_defaults_to_zero gender_only_encoders default_form).
  reflexivity.
Defined.

Lemma C3_witness :
  columns default_frame = feature_order ∧
  app (disk_with lenient_forest full_encoders) default_form =
  Script (Title "Loan Eligibility Prediction System"
          :: SidebarHeader "User Input Features"
          :: sidebar_inputs
          ++ SidebarButton "Predict Eligibility"
          :: rendered (prediction_handler (forest_classifier lenient_forest)
                         default_frame))
         (ending (prediction_handler (forest_classifier lenient_forest)
                    default_frame)).
Proof.
  destruct (C3_feature_vector_in_schema_order
              (disk_with lenient_forest full_encoders)
              (forest_classifier lenient_forest) full_encoders
              default_form default_frame)
    as (_ & Hcols & _ & Hrun); [reflexivity|reflexivity|reflexivity|].
  split; [exact Hcols|apply Hrun; reflexivity].
Defined.




Lemma C5_witness :
  let shown :=
    insights_of (rendered (app (disk_with lenient_forest full_encoders)
                               default_form)) in
  (GoodCreditHistory ∈ shown ↔ credit_history default_form = 1) ∧
  (PoorCreditHistory ∈ shown ↔ credit_history default_form = 0) ∧
  ¬ (GoodCreditHistory ∈ shown ∧ PoorCreditHistory ∈ shown) ∧
  length (List.filter
            (fun i => bool_decide (i ∈ [GoodCreditHistory; PoorCreditHistory]))
            shown) = 1%nat.
Proof.
  exact (C5_exactly_one_credit_history_flag
           (disk_with lenient_forest full_encoders) default_form default_frame
           default_form_predicted default_form_valid).
Defined.

Lemma C6_witness :
  let shown :=
    insights_of (rendered (app (disk_with lenient_forest full_encoders)
                               default_form)) in
  (HighApplicantIncome ∈ shown ↔ 8000 < applicant_income default_form) ∧
  (LargeLoanAmount ∈ shown ↔ 300 < loan_amount default_form) ∧
  (∀ history disk' f',
     predicted disk' f' default_frame →
     (fun run => insights_of (rendered run))
       <$> last (session (history ++ [(disk', f')])) = Some shown).
Proof.
  exact (C6_income_and_loan_flags_depend_on_the_row_alone
           (disk_with lenient_forest full_encoders) default_form default_frame
           default_form_predicted).
Defined.

Lemma C8_witness :
  ∃ df',
    impute sample_csv = Ok df' ∧
    columns df' = columns sample_csv ∧
    Forall2 (fun old new =>
               ∃ mode, is_mode mode old.2 ∧
                       new.2 = map (fun c => if is_nan c then mode else c) old.2)
            sample_csv df' ∧
    Forall (fun column => Forall (fun c => is_nan c = false) column.2) df'.
Proof.
  eexists. split; [vm_compute; reflexivity|].
  apply C8_imputation_leaves_no_missing_value. vm_compute. reflexivity.
Defined.

Lemma C9_witness :
  app disk_without_model default_form =
  Script [ErrorLoadingModel (OSError "No such file or directory: 'loan_model'")]
         Stopped.
Proof.
  apply C9_failed_load_stops_the_run. left. reflexivity.
Defined.

Lemma C10_witness :
  ∃ model label_encoders,
    train_model (constant_fit lenient_forest) (Ok sample_csv)
      = Ok (model, label_encoders) ∧
    dom label_encoders =
      {["Gender"; "Married"; "Education"; "Self_Employed"; "Property_Area";
        "Loan_Status"]} ∧
    label_encoders !! "Dependents" = None.
Proof.
  eexists _, _. split; [vm_compute; reflexivity|].
  destruct (C10_encoders_for_the_six_label_columns_only
              (constant_fit lenient_forest) (Ok sample_csv) lenient_forest
              full_encoders) as (Hdom & Hdep & _).
  - vm_compute. reflexivity.
  - split; [exact Hdom|exact Hdep].
Defined.

(** * Further properties of the Predictor *)

(** ** How a run can end *)

Lemma transform_singleton (le : LabelEncoder) (y : cell) :
  transform le [y] =
  match position y (classes_ le) with
  | Some i => Ok [Z.of_nat i]
  | None => Raise (ValueError "y contains previously unseen labels")
  end.
Proof. cbn. destruct (position y (classes_ le)); reflexivity. Qed.

Lemma encode_label_cases encs col value :
  match encode_label encs col value with
  | Ok code =>
      match encs !! col with
      | Some le => ∃ i, position (Str value) (classes_ le) = Some i ∧
                        code = Z.of_nat i
      | None => code = 0
      end
  | Raise e =>
      e = ValueError "y contains previously unseen labels" ∧
      ∃ le, encs !! col = Some le ∧ position (Str value) (classes_ le) = None
  end.
Proof.
  unfold encode_label. destruct (encs !! col) as [le|]; [|reflexivity].
  rewrite transform_singleton.
  destruct (position (Str value) (classes_ le)) as [i|] eqn:E; cbn.
  - exists i. split; [assumption || reflexivity|reflexivity].
  - split; [reflexivity|]. exists le. split; [reflexivity|].
    assumption || reflexivity.
Qed.

Lemma normalize_dependents_raises (d : string) (e : exn) :
  normalize_dependents (PyStr d) = Raise e →
  e = ValueError "invalid literal for int() with base 10".
Proof.
  unfold normalize_dependents, py_int.
  destruct (pyval_eqb _ _); [discriminate|].
  destruct (parse_int _); [discriminate|]. intros [= <-]. reflexivity.
Qed.

Lemma encode_form_raises encs f e :
  encode_form encs f = Raise e → ∃ msg, e = ValueError msg.
Proof.
  unfold encode_form, categorical_inputs. cbn [zip zip_with encode_categoricals].
  intros H.
  repeat match type of H with
  | context [encode_label ?a ?b ?c] =>
      let E := fresh "E" in
      pose proof (encode_label_cases a b c) as E;
      destruct (encode_label a b c);
      cbn [mbind result_bind encode_categoricals] in H;
      [clear E|injection H as <-; destruct E as [-> _]; eexists; reflexivity]
  end.
  destruct (normalize_dependents _) eqn:Ed; cbn [mbind result_bind] in H;
    [discriminate H|].
  injection H as <-. apply normalize_dependents_raises in Ed. eauto.
Qed.

Lemma prediction_handler_raises model df e :
  predict_eligibility model df = Raise e →
  prediction_handler model df = Script [ErrorDuringPrediction e] (Return tt).
Proof.
  intros H. unfold prediction_handler, prediction_body. rewrite H. reflexivity.
Qed.

Lemma app_not_clicked disk model encs f df :
  loan_model disk = Ok model →
  label_encoders_file disk = Ok encs →
  encode_form encs f = Ok df →
  predict_clicked f = false →
  app disk f =
  Script (Title "Loan Eligibility Prediction System"
          :: SidebarHeader "User Input Features"
          :: sidebar_inputs ++ [SidebarButton "Predict Eligibility"])
         (Return tt).
Proof.
  intros Hm He Hdf Hc. rewrite (app_loaded _ _ _ _ Hm He).
  rewrite user_input_features_run, Hdf, Hc. reflexivity.
Qed.

Lemma prediction_handler_frame_returns model f g m e s p d :
  ending (prediction_handler model (frame_of f g m e s p d)) = Return tt.
Proof.
  destruct (predict_eligibility model (frame_of f g m e s p d))
    as [[y pr]|err] eqn:E.
  - rewrite (prediction_handler_returns _ _ _ _ _ _ _ _ _ _ E). reflexivity.
  - rewrite (prediction_handler_raises _ _ _ E). reflexivity.
Qed.

(** X1.  A run whose artifacts load and whose form is encoded, the button
    not being pressed, renders the title, the header, the eleven inputs and
    the button, and returns: the classifier is not called. *)
Theorem X1_idle_run_renders_the_form_only
    (disk : artifacts) (model : classifier) (encs : gmap string LabelEncoder)
    (f : form) (df : DataFrame) :
  loan_model disk = Ok model →
  label_encoders_file disk = Ok encs →
  encode_form encs f = Ok df →
  predict_clicked f = false →
  app disk f =
    Script (Title "Loan Eligibility Prediction System"
            :: SidebarHeader "User Input Features"
            :: sidebar_inputs ++ [SidebarButton "Predict Eligibility"])
           (Return tt) ∧
  (∀ model',
     app {| loan_model := Ok model'; label_encoders_file := Ok encs |} f
     = app disk f).
Proof.
  intros Hm He Hdf Hc. split.
  - apply (app_not_clicked _ model encs f df); assumption.
  - intros model'.
    rewrite (app_not_clicked disk model encs f df) by assumption.
    apply (app_not_clicked _ model' encs f df); try assumption; reflexivity.
Qed.

(** X2.  When one of the two calls on the classifier raises, the handler
    catches the exception: the run renders the error message after the
    button, none of the result, plot, summary or advisory lines, and
    returns normally. *)
Theorem X2_prediction_failure_is_caught
    (disk : artifacts) (model : classifier) (encs : gmap string LabelEncoder)
    (f : form) (df : DataFrame) (e : exn) :
  loan_model disk = Ok model →
  label_encoders_file disk = Ok encs →
  encode_form encs f = Ok df →
  predict_clicked f = true →
  predict_eligibility model df = Raise e →
  app disk f =
    Script (Title "Loan Eligibility Prediction System"
            :: SidebarHeader "User Input Features"
            :: sidebar_inputs
            ++ [SidebarButton "Predict Eligibility"; ErrorDuringPrediction e])
           (Return tt) ∧
  insights_of (rendered (app disk f)) = [].
Proof.
  intros Hm He Hdf Hc Hp.
  assert (app disk f =
    Script (Title "Loan Eligibility Prediction System"
            :: SidebarHeader "User Input Features"
            :: sidebar_inputs
            ++ [SidebarButton "Predict Eligibility"; ErrorDuringPrediction e])
           (Return tt)) as Hrun.
  { rewrite (app_submitted _ _ _ _ _ Hm He Hdf Hc).
    rewrite (prediction_handler_raises _ _ _ Hp). reflexivity. }
  split; [exact Hrun|]. rewrite Hrun. reflexivity.
Qed.

(** X3.  A run ends in one of three ways, and each tells what happened: it
    is stopped exactly when an artifact fails to load; an exception leaves
    it exactly when the encoding of the form raises, and that exception is
    a ValueError; otherwise it returns, whether or not the prediction went
    through. *)
Theorem X3_how_a_run_ends (disk : artifacts) (f : form) :
  match ending (app disk f) with
  | Stopped =>
      ∃ e, loan_model disk = Raise e ∨
           (∃ model, loan_model disk = Ok model ∧
                     label_encoders_file disk = Raise e)
  | Raised e =>
      ∃ model encs msg,
        loan_model disk = Ok model ∧ label_encoders_file disk = Ok encs ∧
        encode_form encs f = Raise e ∧ e = ValueError msg
  | Return _ =>
      ∃ model encs df,
        loan_model disk = Ok model ∧ label_encoders_file disk = Ok encs ∧
        encode_form encs f = Ok df
  end.
Proof.
  destruct (loan_model disk) as [model|e] eqn:Hm.
  - destruct (label_encoders_file disk) as [encs|e] eqn:He.
    + destruct (encode_form encs f) as [df|e] eqn:Hdf.
      * destruct (predict_clicked f) eqn:Hc.
        -- rewrite (app_submitted _ _ _ _ _ Hm He Hdf Hc). cbn [ending].
           destruct (encode_form_inv _ _ _ Hdf)
             as (g & m & e & s & p & d & _ & _ & _ & _ & _ & _ & ->).
           rewrite prediction_handler_frame_returns.
           exists model, encs. eexists. repeat split. exact Hdf.
        -- rewrite (app_not_clicked _ _ _ _ _ Hm He Hdf Hc). cbn [ending].
           exists model, encs, df. repeat split. exact Hdf.
      * rewrite (encoding_error_escapes _ _ _ _ _ Hm He Hdf). cbn [ending].
        destruct (encode_form_raises _ _ _ Hdf) as (msg & ->).
        exists model, encs, msg. repeat split. exact Hdf.
    + unfold app, load_artifacts. rewrite Hm, He. cbn.
      exists e. right. exists model. split; reflexivity.
  - unfold app, load_artifacts. rewrite Hm. cbn.
    exists e. left. reflexivity.
Qed.

(** ** What the encoding keeps and what it loses *)

Lemma position_lookup (y : cell) (classes : list cell) (i : nat) :
  position y classes = Some i →
  ∃ c, classes !! i = Some c ∧ same_label c y = true.
Proof.
  revert i. induction classes as [|c classes IH]; intros i H; cbn in H.
  - discriminate H.
  - destruct (same_label c y) eqn:E.
    + injection H as <-. exists c. split; [reflexivity|exact E].
    + destruct (position y classes) as [j|]; [|discriminate H].
      injection H as <-. apply (IH j). reflexivity.
Qed.

Lemma position_lt (y : cell) (classes : list cell) (i : nat) :
  position y classes = Some i → (i < length classes)%nat.
Proof.
  intros H. apply position_lookup in H as (c & Hc & _).
  apply lookup_lt_Some in Hc. exact Hc.
Qed.

Lemma same_label_Str (c : cell) (s : string) :
  same_label c (Str s) = true → c = Str s.
Proof.
  unfold same_label. destruct c as [|t|q]; cbn; try discriminate.
  rewrite orb_false_r. intros H. apply String.eqb_eq in H. congruence.
Qed.

Lemma position_Str_inj (a b : string) (classes : list cell) (i : nat) :
  position (Str a) classes = Some i →
  position (Str b) classes = Some i →
  a = b.
Proof.
  intros Ha Hb.
  apply position_lookup in Ha as (c & Hc & Hca).
  apply position_lookup in Hb as (c' & Hc' & Hcb).
  apply same_label_Str in Hca, Hcb. congruence.
Qed.

Lemma encode_label_inj encs col a b code :
  is_Some (encs !! col) →
  encode_label encs col a = Ok code →
  encode_label encs col b = Ok code →
  a = b.
Proof.
  intros [le Hle] Ha Hb.
  pose proof (encode_label_cases encs col a) as Ca.
  pose proof (encode_label_cases encs col b) as Cb.
  rewrite Ha, Hle in Ca. rewrite Hb, Hle in Cb.
  destruct Ca as (i & Hi & ->). destruct Cb as (j & Hj & Hij).
  apply Nat2Z.inj in Hij. subst j.
  exact (position_Str_inj a b _ _ Hi Hj).
Qed.

Lemma normalize_dependents_options (d : string) :
  d ∈ ["0"; "1"; "2"; "3+"] →
  ∃ z, normalize_dependents (PyStr d) = Ok z ∧ 0 <= z <= 3.
Proof.
  intros H.
  assert (d = "0" ∨ d = "1" ∨ d = "2" ∨ d = "3+") as [-> | [-> | [-> | ->]]]
    by list_mem; [exists 0|exists 1|exists 2|exists 3];
    (split; [reflexivity|lia]).
Qed.

Lemma normalize_dependents_inj (d d' : string) (z : Z) :
  d ∈ ["0"; "1"; "2"; "3+"] →
  d' ∈ ["0"; "1"; "2"; "3+"] →
  normalize_dependents (PyStr d) = Ok z →
  normalize_dependents (PyStr d') = Ok z →
  d = d'.
Proof.
  intros H H'.
  assert (d = "0" ∨ d = "1" ∨ d = "2" ∨ d = "3+") as [-> | [-> | [-> | ->]]]
    by list_mem;
  assert (d' = "0" ∨ d' = "1" ∨ d' = "2" ∨ d' = "3+") as [-> | [-> | [-> | ->]]]
    by list_mem;
  cbn; intros [= <-] [=]; reflexivity.
Qed.

Lemma frame_of_inj f g m e s p d f' g' m' e' s' p' d' :
  frame_of f g m e s p d = frame_of f' g' m' e' s' p' d' →
  g = g' ∧ m = m' ∧ e = e' ∧ s = s' ∧ p = p' ∧ d = d' ∧
  applicant_income f = applicant_income f' ∧
  coapplicant_income f = coapplicant_income f' ∧
  loan_amount f = loan_amount f' ∧
  loan_amount_term f = loan_amount_term f' ∧
  credit_history f = credit_history f'.
Proof.
  unfold frame_of, inject_Z. intros H.
  injection H as -> -> -> -> -> -> -> -> -> -> ->. repeat split.
Qed.

(** X4.  When an encoder is registered under each of the five names, the
    encoding loses nothing: two forms filled from the options of the form
    that are encoded into the same frame show the same eleven inputs. *)
Theorem X4_full_encoders_separate_submissions
    (encs : gmap string LabelEncoder) (f f' : form) (df : DataFrame) :
  all_registered encs →
  form_valid f →
  form_valid f' →
  encode_form encs f = Ok df →
  encode_form encs f' = Ok df →
  same_inputs f f'.
Proof.
  intros Hreg Hv Hv' H H'.
  destruct (encode_form_inv _ _ _ H)
    as (g & m & e & s & p & d & Hg & Hm & He & Hs & Hp & Hd & Hdf).
  destruct (encode_form_inv _ _ _ H')
    as (g' & m' & e' & s' & p' & d' & Hg' & Hm' & He' & Hs' & Hp' & Hd' & Hdf').
  rewrite Hdf in Hdf'. apply frame_of_inj in Hdf'.
  destruct Hdf' as (<- & <- & <- & <- & <- & <- & Ha & Hc & Hl & Ht & Hh).
  assert (∀ col, col ∈ ["Gender"; "Married"; "Education"; "Self_Employed";
                        "Property_Area"] → is_Some (encs !! col)) as Hreg'.
  { intros col Hcol. apply Hreg. exact Hcol. }
  destruct Hv as (_ & _ & Hdep & _). destruct Hv' as (_ & _ & Hdep' & _).
  unfold same_inputs. repeat split; try assumption.
  - apply (encode_label_inj encs "Gender" _ _ g); [apply Hreg'; list_mem|..];
      assumption.
  - apply (encode_label_inj encs "Married" _ _ m); [apply Hreg'; list_mem|..];
      assumption.
  - apply (normalize_dependents_inj _ _ d); assumption.
  - apply (encode_label_inj encs "Education" _ _ e); [apply Hreg'; list_mem|..];
      assumption.
  - apply (encode_label_inj encs "Self_Employed" _ _ s);
      [apply Hreg'; list_mem|..]; assumption.
  - apply (encode_label_inj encs "Property_Area" _ _ p);
      [apply Hreg'; list_mem|..]; assumption.
Qed.

Lemma encode_label_missing encs col a b :
  encs !! col = None ∨ a = b →
  encode_label encs col a = encode_label encs col b.
Proof.
  intros [H | ->]; [|reflexivity]. unfold encode_label. rewrite H. reflexivity.
Qed.

Lemma encode_form_same_where_encoded encs f f' :
  same_where_encoded encs f f' → encode_form encs f = encode_form encs f'.
Proof.
  intros (Hg & Hm & He & Hs & Hp & Hd & Ha & Hc & Hl & Ht & Hh).
  unfold encode_form, categorical_inputs. cbn [zip zip_with encode_categoricals].
  rewrite (encode_label_missing encs "Gender" _ _ Hg),
    (encode_label_missing encs "Married" _ _ Hm),
    (encode_label_missing encs "Education" _ _ He),
    (encode_label_missing encs "Self_Employed" _ _ Hs),
    (encode_label_missing encs "Property_Area" _ _ Hp),
    Hd, Ha, Hc, Hl, Ht, Hh.
  reflexivity.
Qed.

(** X5.  A categorical choice whose encoder is missing does not reach the
    classifier: two forms that differ only in such choices are encoded
    alike (the column holds 0 for both), and the runs on them are the
    same. *)
Theorem X5_missing_encoder_hides_the_choice
    (disk : artifacts) (encs : gmap string LabelEncoder) (f f' : form) :
  label_encoders_file disk = Ok encs →
  same_where_encoded encs f f' →
  predict_clicked f = predict_clicked f' →
  encode_form encs f = encode_form encs f' ∧
  app disk f = app disk f'.
Proof.
  intros He Hsame Hc.
  pose proof (encode_form_same_where_encoded _ _ _ Hsame) as Hdf.
  split; [exact Hdf|].
  destruct (loan_model disk) as [model|e] eqn:Hm.
  - rewrite !(app_loaded _ _ _ _ Hm He), !user_input_features_run, Hdf, Hc.
    reflexivity.
  - unfold app, load_artifacts. rewrite Hm. reflexivity.
Qed.

Lemma encode_label_covered encs col options value :
  encoders_cover encs →
  (col, options) ∈ form_options →
  value ∈ options →
  ∃ code, encode_label encs col value = Ok code.
Proof.
  intros Hcov Hcol Hval.
  pose proof (encode_label_cases encs col value) as C.
  destruct (encode_label encs col value) as [code|e]; [eauto|].
  destruct C as (_ & le & Hle & Hpos).
  destruct (Hcov col options le value Hcol Hle Hval) as [i Hi]. congruence.
Qed.

Lemma encode_form_covered (encs : gmap string LabelEncoder) (f : form) :
  encoders_cover encs → form_valid f → ∃ df, encode_form encs f = Ok df.
Proof.
  intros Hcov (Hg & Hm & Hd & He & Hs & _ & _ & _ & _ & _ & Hp).
  destruct (encode_label_covered encs "Gender" ["Male"; "Female"]
              (gender f) Hcov)
    as (g & Eg); [unfold form_options; elem_of_list|exact Hg|].
  destruct (encode_label_covered encs "Married" ["No"; "Yes"]
              (married f) Hcov)
    as (m & Em); [unfold form_options; elem_of_list|exact Hm|].
  destruct (encode_label_covered encs "Education"
              ["Graduate"; "Not Graduate"] (education f) Hcov)
    as (e & Ee); [unfold form_options; elem_of_list|exact He|].
  destruct (encode_label_covered encs "Self_Employed" ["No"; "Yes"]
              (self_employed f) Hcov)
    as (s & Es); [unfold form_options; elem_of_list|exact Hs|].
  destruct (encode_label_covered encs "Property_Area"
              ["Urban"; "Semiurban"; "Rural"] (property_area f) Hcov)
    as (p & Ep); [unfold form_options; elem_of_list|exact Hp|].
  destruct (normalize_dependents_options _ Hd) as (d & Ed & _).
  eexists. apply (encode_form_intro encs f g m e s p d); assumption.
Qed.

(** X6.  When every registered encoder knows every option of its select
    box, the encoding of a form filled from the options never raises:
    [user_input_features] returns a frame and no exception leaves the
    run. *)
Theorem X6_covering_encoders_never_raise
    (disk : artifacts) (encs : gmap string LabelEncoder) (f : form) :
  encoders_cover encs →
  form_valid f →
  (∃ df, ending (user_input_features encs f) = Return df) ∧
  (label_encoders_file disk = Ok encs →
   ∀ e, ending (app disk f) ≠ Raised e).
Proof.
  intros Hcov Hv.
  destruct (encode_form_covered encs f Hcov Hv) as (df & Hdf).
  split.
  - exists df. apply user_input_features_returns. exact Hdf.
  - intros Hfile e Hraised.
    destruct (loan_model disk) as [model|err] eqn:Hmodel.
    + destruct (predict_clicked f) eqn:Hc.
      * rewrite (app_submitted _ _ _ _ _ Hmodel Hfile Hdf Hc) in Hraised.
        cbn [ending] in Hraised.
        destruct (encode_form_inv _ _ _ Hdf)
          as (g & m & e' & s & p & d & _ & _ & _ & _ & _ & _ & ->).
        rewrite prediction_handler_frame_returns in Hraised. discriminate.
      * rewrite (app_not_clicked _ _ _ _ _ Hmodel Hfile Hdf Hc) in Hraised.
        discriminate.
    + unfold app, load_artifacts in Hraised. rewrite Hmodel in Hraised.
      discriminate.
Qed.

(** X7.  For a form filled from its options, every feature handed to the
    classifier is a non-negative integer: the number of dependents lies
    between 0 and 3, and the code of a categorical choice is below the
    number of classes of its encoder. *)
Theorem X7_features_are_bounded
    (encs : gmap string LabelEncoder) (f : form) (df : DataFrame) :
  form_valid f →
  encode_form encs f = Ok df →
  Forall (fun column => ∃ z, column.2 = [Num (inject_Z z)] ∧ 0 <= z) df ∧
  (∃ d, first_of df "Dependents" = Ok (Num (inject_Z d)) ∧ 0 <= d <= 3) ∧
  Forall (fun '(col, value) =>
            ∀ le, encs !! col = Some le →
                  ∃ code, first_of df col = Ok (Num (inject_Z code)) ∧
                          0 <= code < Z.of_nat (length (classes_ le)))
         (categorical_inputs f).
Proof.
  intros (_ & _ & Hdep & _ & _ & Ha & Hc & Hl & Ht & Hh & _) H.
  destruct (encode_form_inv _ _ _ H)
    as (g & m & e & s & p & d & Hg & Hm & He & Hs & Hp & Hd & ->).
  destruct (normalize_dependents_options _ Hdep) as (d' & Hd' & Hrange).
  assert (d' = d) as -> by congruence.
  assert (∀ col value code le,
            encode_label encs col value = Ok code →
            encs !! col = Some le →
            0 <= code < Z.of_nat (length (classes_ le))) as Hcode.
  { intros col value code le Hok Hle.
    pose proof (encode_label_cases encs col value) as C.
    rewrite Hok, Hle in C. destruct C as (i & Hi & ->).
    apply position_lt in Hi. lia. }
  assert (∀ col value code,
            encode_label encs col value = Ok code → 0 <= code) as Hnn.
  { intros col value code Hok.
    pose proof (encode_label_cases encs col value) as C. rewrite Hok in C.
    destruct (encs !! col); [destruct C as (i & _ & ->)|]; lia. }
  assert (0 <= loan_amount_term f ∧ 0 <= credit_history f) as [Ht' Hh'].
  { split; list_mem. }
  split; [|split].
  - unfold frame_of.
    repeat apply Forall_cons_2; [..|apply Forall_nil_2];
      eexists; (split; [reflexivity|]); eauto; lia.
  - exists d. split; [reflexivity|exact Hrange].
  - unfold categorical_inputs. cbn [zip zip_with].
    repeat apply Forall_cons_2; [..|apply Forall_nil_2];
      intros le Hle; eexists; (split; [reflexivity|]); eauto.
Qed.

(** ** A forest with a single class *)

Lemma length_accumulate (x : list cell) (trees : list tree) (acc : list Q) :
  (length (foldl (fun acc t => zip_with Qplus acc (t x)) acc trees)
   <= length acc)%nat.
Proof.
  revert acc. induction trees as [|t trees IH]; intros acc; cbn [foldl].
  - lia.
  - etransitivity; [apply IH|]. rewrite length_zip_with. lia.
Qed.

Lemma length_forest_proba (rf : RandomForestClassifier) (x : list cell) :
  (length (forest_proba rf x) <= length (rf_classes_ rf))%nat.
Proof.
  unfold forest_proba. rewrite length_map.
  etransitivity; [apply length_accumulate|]. rewrite length_replicate. lia.
Qed.

Lemma one_class_eligibility (rf : RandomForestClassifier) f g m e s p d :
  (length (rf_classes_ rf) <= 1)%nat →
  predict_eligibility (forest_classifier rf) (frame_of f g m e s p d)
  = Raise (IndexError "index out of range").
Proof.
  intros Hlen.
  pose proof (length_forest_proba rf (row (frame_of f g m e s p d) 0)) as Hp.
  unfold predict_eligibility, forest_classifier. cbn [predict predict_proba].
  rewrite rows_frame_of. cbn [mapM map]. unfold forest_predict.
  destruct (forest_proba rf (row (frame_of f g m e s p d) 0)) as [|q [|q' l]];
    destruct (rf_classes_ rf) as [|c [|c' cs]]; cbn in *; try lia; reflexivity.
Qed.

(** X8.  With a forest fitted on a target that holds one class only, the
    approval probability [predict_proba(...)[0][1]] does not exist: every
    submission ends in the message for a failed prediction, carrying an
    IndexError, and gets neither a decision nor advisory lines. *)
Theorem X8_one_class_forest_fails_every_prediction
    (rf : RandomForestClassifier) (encs : gmap string LabelEncoder)
    (f : form) (df : DataFrame) :
  (length (rf_classes_ rf) <= 1)%nat →
  encode_form encs f = Ok df →
  predict_clicked f = true →
  app (disk_with rf encs) f =
  Script (Title "Loan Eligibility Prediction System"
          :: SidebarHeader "User Input Features"
          :: sidebar_inputs
          ++ [SidebarButton "Predict Eligibility";
              ErrorDuringPrediction (IndexError "index out of range")])
         (Return tt).
Proof.
  intros Hlen Hdf Hc.
  rewrite (app_submitted (disk_with rf encs) (forest_classifier rf) encs f df)
    by (assumption || reflexivity).
  destruct (encode_form_inv _ _ _ Hdf)
    as (g & m & e & s & p & d & _ & _ & _ & _ & _ & _ & ->).
  rewrite (prediction_handler_raises _ _ _
             (one_class_eligibility rf f g m e s p d Hlen)).
  reflexivity.
Qed.

(** * Further properties of the Trainer *)

(** ** Fitting an encoder and encoding with it *)

Lemma cell_eqb_sym (a b : cell) : cell_eqb a b = cell_eqb b a.
Proof.
  destruct a, b; cbn; try reflexivity.
  - apply String.eqb_sym.
  - apply Qeq_bool_comm.
Qed.

Lemma cell_eqb_refl (a : cell) : is_nan a = false → cell_eqb a a = true.
Proof.
  destruct a; cbn; [discriminate|intros _..].
  - apply String.eqb_refl.
  - apply Qeq_bool_refl.
Qed.

Lemma position_cons_is_Some (y c : cell) (classes : list cell) :
  same_label c y = true ∨ is_Some (position y classes) →
  is_Some (position y (c :: classes)).
Proof.
  cbn. destruct (same_label c y); [eauto|].
  intros [H|[i ->]]; [discriminate H|]. cbn. eauto.
Qed.

Lemma position_cons_inv (y c : cell) (classes : list cell) :
  is_Some (position y (c :: classes)) →
  same_label c y = true ∨ is_Some (position y classes).
Proof.
  cbn. destruct (same_label c y); [auto|].
  destruct (position y classes); [eauto|]. intros [i H]. discriminate H.
Qed.

Lemma position_app_r (y : cell) (l1 l2 : list cell) :
  is_Some (position y l2) → is_Some (position y (l1 ++ l2)).
Proof.
  intros H. induction l1 as [|c l1 IH]; [exact H|].
  apply position_cons_is_Some. right. exact IH.
Qed.

Lemma position_app_l (y : cell) (l1 l2 : list cell) :
  is_Some (position y l1) → is_Some (position y (l1 ++ l2)).
Proof.
  induction l1 as [|c l1 IH]; intros H.
  - destruct H as [i H]. discriminate H.
  - apply position_cons_inv in H. apply position_cons_is_Some.
    destruct H as [H|H]; [left; exact H|right; apply IH, H].
Qed.

Lemma insert_unique_new (x : cell) (sorted sorted' : list cell) :
  is_nan x = false →
  insert_unique x sorted = Ok sorted' →
  is_Some (position x sorted').
Proof.
  intros Hx. revert sorted'.
  induction sorted as [|y rest IH]; intros sorted' H; cbn in H.
  - injection H as <-. apply position_cons_is_Some. left.
    unfold same_label. rewrite cell_eqb_refl by exact Hx. reflexivity.
  - destruct (cell_eqb x y) eqn:E.
    + injection H as <-. apply position_cons_is_Some. left.
      unfold same_label. rewrite cell_eqb_sym, E. reflexivity.
    + destruct (cell_ltb x y) as [[]|]; cbn in H; [| |discriminate H].
      * injection H as <-. apply position_cons_is_Some. left.
        unfold same_label. rewrite cell_eqb_refl by exact Hx. reflexivity.
      * destruct (insert_unique x rest) as [r|]; [|discriminate H].
        cbn in H. injection H as <-.
        apply position_cons_is_Some. right. apply IH. reflexivity.
Qed.

Lemma insert_unique_old (x y : cell) (sorted sorted' : list cell) :
  insert_unique x sorted = Ok sorted' →
  is_Some (position y sorted) →
  is_Some (position y sorted').
Proof.
  revert sorted'. induction sorted as [|z rest IH]; intros sorted' H Hy.
  - destruct Hy as [i Hy]. discriminate Hy.
  - cbn in H. destruct (cell_eqb x z).
    + injection H as <-. exact Hy.
    + destruct (cell_ltb x z) as [[]|]; cbn in H; [| |discriminate H].
      * injection H as <-. apply position_cons_is_Some. right. exact Hy.
      * destruct (insert_unique x rest) as [r|]; [|discriminate H].
        cbn in H. injection H as <-.
        apply position_cons_inv in Hy. apply position_cons_is_Some.
        destruct Hy as [Hy|Hy]; [left; exact Hy|right].
        apply IH; [reflexivity|exact Hy].
Qed.

Lemma sorted_unique_knows (values sorted : list cell) (c : cell) :
  sorted_unique values = Ok sorted →
  c ∈ values →
  is_nan c = false →
  is_Some (position c sorted).
Proof.
  revert sorted. induction values as [|x values IH]; intros sorted H Hc Hn.
  - list_mem.
  - cbn in H. destruct (sorted_unique values) as [s|]; [|discriminate H].
    cbn in H. apply elem_of_cons in Hc as [->|Hc].
    + apply (insert_unique_new x s); assumption.
    + apply (insert_unique_old x c s); [exact H|].
      apply IH; [reflexivity|exact Hc|exact Hn].
Qed.

Lemma fit_knows (values : list cell) (le : LabelEncoder) (c : cell) :
  fit values = Ok le → c ∈ values → is_Some (position c (classes_ le)).
Proof.
  unfold fit. destruct (sorted_unique (observed values)) as [s|] eqn:Es;
    [|discriminate]. cbn. intros [= <-] Hc. cbn [classes_].
  destruct (is_nan c) eqn:Hn.
  - apply position_app_r.
    assert (existsb is_nan values = true) as ->.
    { apply existsb_exists. exists c. split; [apply list_elem_of_In, Hc|exact Hn]. }
    apply position_cons_is_Some. left. unfold same_label. rewrite Hn.
    apply orb_true_r.
  - apply position_app_l. apply (sorted_unique_knows (observed values)).
    + exact Es.
    + unfold observed. apply list_elem_of_In, List.filter_In.
      split; [apply list_elem_of_In, Hc|]. rewrite Hn. reflexivity.
    + exact Hn.
Qed.

Lemma transform_total (le : LabelEncoder) (ys : list cell) :
  (∀ y, y ∈ ys → is_Some (position y (classes_ le))) →
  ∃ codes, transform le ys = Ok codes.
Proof.
  induction ys as [|y ys IH]; intros H; cbn.
  - eauto.
  - destruct (H y) as [i ->]; [apply list_elem_of_here|].
    destruct IH as (codes & ->).
    { intros y' Hy'. apply H, list_elem_of_further, Hy'. }
    cbn. eauto.
Qed.

Lemma transform_decodes (le : LabelEncoder) (ys : list cell) (codes : list Z) :
  transform le ys = Ok codes →
  Forall2 (fun y code =>
             0 <= code < Z.of_nat (length (classes_ le)) ∧
             ∃ c, classes_ le !! Z.to_nat code = Some c ∧
                  same_label c y = true)
          ys codes.
Proof.
  revert codes. induction ys as [|y ys IH]; intros codes H; cbn in H.
  - injection H as <-. constructor.
  - destruct (position y (classes_ le)) as [i|] eqn:Ei; [|discriminate H].
    destruct (transform le ys) as [cs|]; [|discriminate H]. cbn in H.
    injection H as <-. constructor; [|apply IH; reflexivity].
    pose proof (position_lt _ _ _ Ei) as Hlt.
    apply position_lookup in Ei as (c & Hc & Hsame).
    split; [lia|]. exists c. rewrite Nat2Z.id. split; assumption.
Qed.

(** X9.  Once [fit] has accepted a column, [fit_transform] encodes that
    column without raising, and every code leads back to its label: it is
    the position in [classes_] of a label equal to the encoded cell. *)
Theorem X9_fit_transform_round_trip (values : list cell) (le : LabelEncoder) :
  fit values = Ok le →
  ∃ codes,
    fit_transform values = Ok (le, codes) ∧
    Forall2 (fun v code =>
               0 <= code < Z.of_nat (length (classes_ le)) ∧
               ∃ c, classes_ le !! Z.to_nat code = Some c ∧
                    same_label c v = true)
            values codes.
Proof.
  intros Hfit.
  destruct (transform_total le values) as (codes & Hcodes).
  { intros y Hy. apply (fit_knows values); assumption. }
  exists codes. split.
  - unfold fit_transform. rewrite Hfit. cbn. rewrite Hcodes. reflexivity.
  - apply transform_decodes. exact Hcodes.
Qed.

(** ** Columns through the steps of the Trainer *)

Lemma df_getitem_drop (df df' : DataFrame) (name col : string) :
  df_drop df name = Ok df' →
  col ≠ name →
  df_getitem df' col = df_getitem df col.
Proof.
  unfold df_drop. destruct (existsb _ _); [|discriminate].
  intros [= <-] Hne. induction df as [|[n values] df IH]; [reflexivity|].
  cbn. destruct (String.eqb_spec n name) as [->|Hn]; cbn.
  - destruct (String.eqb_spec name col) as [->|_]; [congruence|exact IH].
  - destruct (String.eqb n col); [reflexivity|exact IH].
Qed.

Lemma columns_drop (df df' : DataFrame) (name : string) :
  df_drop df name = Ok df' →
  name ∈ columns df ∧
  columns df' = List.filter (fun c => negb (String.eqb c name)) (columns df).
Proof.
  unfold df_drop. destruct (existsb _ _) eqn:E; [|discriminate].
  intros [= <-]. split.
  - apply existsb_exists in E as (c & Hc & Heq).
    apply String.eqb_eq in Heq. subst c. apply list_elem_of_In, Hc.
  - unfold columns. clear E. induction df as [|[n values] df IH]; [reflexivity|].
    cbn. destruct (String.eqb n name); cbn; [exact IH|]. f_equal. exact IH.
Qed.

Lemma df_getitem_impute (df df' : DataFrame) (col : string) (values : list cell) :
  impute df = Ok df' →
  df_getitem df col = Ok values →
  ∃ s, is_nan s = false ∧ s ∈ observed values ∧
       df_getitem df' col = Ok (fill s values).
Proof.
  intros H. apply impute_inv in H.
  induction H as [|[n old] [n' new] df df' (Hname & s & Hmode & Hs & Hfill) _ IH];
    cbn; [discriminate|].
  cbn in Hname, Hfill. subst n' new.
  destruct (String.eqb n col); [|exact IH].
  intros [= <-]. exists s. destruct Hmode as [Hin _]. auto.
Qed.

Lemma columns_impute (df df' : DataFrame) :
  impute df = Ok df' →
  columns df' = columns df ∧
  n_rows df ≠ O ∧
  Forall (fun column => observed column.2 ≠ []) df ∧
  Forall (fun column => Forall (fun c => is_nan c = false) column.2) df'.
Proof.
  intros H. split; [|split; [|split]].
  - apply impute_inv in H. unfold columns.
    induction H as [|old new df df' (Hname & _) _ IH]; cbn; congruence.
  - unfold impute, SimpleImputer_fit_transform in H.
    destruct (Nat.eqb_spec (n_rows df) 0); [discriminate H|assumption].
  - apply impute_inv in H.
    induction H as [|old new df df' (_ & s & [Hin _] & _) _ IH];
      constructor; [|exact IH].
    intros Hempty. rewrite Hempty in Hin. list_mem.
  - apply impute_inv in H.
    induction H as [|old new df df' (_ & s & _ & Hs & Hfill) _ IH];
      constructor; [|exact IH].
    rewrite Hfill. apply fill_no_nan, Hs.
Qed.

Lemma df_getitem_replace_3plus (df : DataFrame) (col : string) :
  df_getitem (df_replace_3plus df) col =
  match df_getitem df col with
  | Ok values => Ok (map replace_3plus values)
  | Raise e => Raise e
  end.
Proof.
  induction df as [|[n values] df IH]; [reflexivity|].
  cbn. destruct (String.eqb n col); [reflexivity|exact IH].
Qed.

Lemma columns_replace_3plus (df : DataFrame) :
  columns (df_replace_3plus df) = columns df.
Proof.
  unfold columns, df_replace_3plus.
  induction df as [|[n values] df IH]; cbn; congruence.
Qed.

Lemma df_getitem_setitem_ne (df : DataFrame) (c col : string) (values : list cell) :
  col ≠ c →
  df_getitem (df_setitem df c values) col = df_getitem df col.
Proof.
  intros Hne. induction df as [|[n vs] df IH]; [reflexivity|].
  cbn. destruct (String.eqb_spec n c) as [->|Hn]; cbn.
  - destruct (String.eqb_spec c col) as [->|_]; [congruence|exact IH].
  - destruct (String.eqb n col); [reflexivity|exact IH].
Qed.

Lemma df_getitem_setitem_eq (df : DataFrame) (col : string)
    (old values : list cell) :
  df_getitem df col = Ok old →
  df_getitem (df_setitem df col values) col = Ok values.
Proof.
  induction df as [|[n vs] df IH]; cbn; [discriminate|].
  destruct (String.eqb_spec n col) as [->|Hn]; cbn.
  - rewrite String.eqb_refl. reflexivity.
  - destruct (String.eqb_spec n col); [congruence|exact IH].
Qed.

Lemma columns_setitem (df : DataFrame) (col : string) (values : list cell) :
  columns (df_setitem df col values) = columns df.
Proof.
  unfold columns, df_setitem. induction df as [|[n vs] df IH]; [reflexivity|].
  cbn. destruct (String.eqb_spec n col) as [->|_]; cbn; f_equal; exact IH.
Qed.


Lemma fit_transform_inv (values : list cell) (le : LabelEncoder)
    (codes : list Z) :
  fit_transform values = Ok (le, codes) →
  fit values = Ok le ∧ transform le values = Ok codes.
Proof.
  unfold fit_transform. destruct (fit values) as [le'|]; [|discriminate].
  cbn. destruct (transform le' values) as [codes'|] eqn:Et; [|discriminate].
  cbn. intros [= <- <-]. split; [reflexivity|exact Et].
Qed.

Lemma encode_columns_cons_inv (col : string) (cols : list string)
    (df df' : DataFrame) (encs encs' : gmap string LabelEncoder) :
  encode_columns (col :: cols) df encs = Ok (df', encs') →
  ∃ values le codes,
    df_getitem df col = Ok values ∧
    fit_transform values = Ok (le, codes) ∧
    encode_columns cols
      (df_setitem df col (map (fun z => Num (inject_Z z)) codes))
      (<[col := le]> encs) = Ok (df', encs').
Proof.
  cbn. destruct (df_getitem df col) as [values|]; [|discriminate]. cbn.
  destruct (fit_transform values) as [[le codes]|] eqn:Ef; [|discriminate].
  cbn. intros H. exists values, le, codes.
  split; [reflexivity|]. split; [exact Ef|exact H].
Qed.

Lemma encode_columns_other (cols : list string) (col : string)
    (df df' : DataFrame) (encs encs' : gmap string LabelEncoder) :
  col ∉ cols →
  encode_columns cols df encs = Ok (df', encs') →
  encs' !! col = encs !! col ∧ df_getitem df' col = df_getitem df col.
Proof.
  revert df encs. induction cols as [|c cols IH]; intros df encs Hnot H.
  - cbn in H. injection H as <- <-. split; reflexivity.
  - apply encode_columns_cons_inv in H as (values & le & codes & _ & _ & H).
    apply not_elem_of_cons in Hnot as [Hne Hnot].
    destruct (IH _ _ Hnot H) as [Hencs Hdf]. split.
    + rewrite Hencs. apply lookup_insert_ne. congruence.
    + rewrite Hdf. apply df_getitem_setitem_ne. exact Hne.
Qed.

Lemma encode_columns_columns (cols : list string)
    (df df' : DataFrame) (encs encs' : gmap string LabelEncoder) :
  encode_columns cols df encs = Ok (df', encs') →
  columns df' = columns df.
Proof.
  revert df encs. induction cols as [|c cols IH]; intros df encs H.
  - cbn in H. injection H as <- <-. reflexivity.
  - apply encode_columns_cons_inv in H as (values & le & codes & _ & _ & H).
    rewrite (IH _ _ H). apply columns_setitem.
Qed.

Lemma encode_columns_member (cols : list string) (col : string)
    (df df' : DataFrame) (encs encs' : gmap string LabelEncoder) :
  NoDup cols →
  col ∈ cols →
  encode_columns cols df encs = Ok (df', encs') →
  ∃ values le codes,
    df_getitem df col = Ok values ∧
    fit_transform values = Ok (le, codes) ∧
    encs' !! col = Some le ∧
    df_getitem df' col = Ok (map (fun z => Num (inject_Z z)) codes).
Proof.
  revert df encs. induction cols as [|c cols IH]; intros df encs Hnd Hin H.
  - list_mem.
  - apply NoDup_cons in Hnd as [Hc Hnd].
    apply encode_columns_cons_inv in H as (values & le & codes & Hget & Hfit & H).
    apply elem_of_cons in Hin as [->|Hin].
    + destruct (encode_columns_other _ _ _ _ _ _ Hc H) as [Hencs Hdf].
      exists values, le, codes. repeat split; try assumption.
      * rewrite Hencs. apply lookup_insert_eq.
      * rewrite Hdf. apply (df_getitem_setitem_eq _ _ values). exact Hget.
    + destruct (IH _ _ Hnd Hin H) as (values' & le' & codes' & Hget' & Hrest).
      exists values', le', codes'. split; [|exact Hrest].
      rewrite df_getitem_setitem_ne in Hget'; [exact Hget'|].
      intros ->. contradiction.
Qed.

Lemma encode_columns_cells (P : cell → Prop) (cols : list string)
    (df df' : DataFrame) (encs encs' : gmap string LabelEncoder) :
  (∀ z, P (Num (inject_Z z))) →
  Forall (fun column => Forall P column.2) df →
  encode_columns cols df encs = Ok (df', encs') →
  Forall (fun column => Forall P column.2) df'.
Proof.
  intros HP. revert df encs. induction cols as [|c cols IH]; intros df encs Hdf H.
  - cbn in H. injection H as <- <-. exact Hdf.
  - apply encode_columns_cons_inv in H as (values & le & codes & _ & _ & H).
    refine (IH _ _ _ H). clear H.
    unfold df_setitem. apply Forall_forall. intros column Hcol.
    apply list_elem_of_In, in_map_iff in Hcol as ([n vs] & <- & Hin).
    cbn [fst]. destruct (String.eqb n c).
    + cbn [snd]. apply Forall_forall. intros cell Hcell.
      apply list_elem_of_In, in_map_iff in Hcell as (z & <- & _). apply HP.
    + rewrite Forall_forall in Hdf. apply (Hdf (n, vs)), list_elem_of_In, Hin.
Qed.

Lemma encoded_columns_NoDup : NoDup encoded_columns.
Proof.
  unfold encoded_columns.
  repeat (apply NoDup_cons; split; [list_mem|]). apply NoDup_nil_2.
Qed.

Lemma train_model_inv fit_forest csv model encs :
  train_model fit_forest (Ok csv) = Ok (model, encs) →
  ∃ df1 df2 df3 X y,
    df_drop csv "Loan_ID" = Ok df1 ∧
    impute df1 = Ok df2 ∧
    encode_columns encoded_columns (df_replace_3plus df2) ∅ = Ok (df3, encs) ∧
    df_drop df3 "Loan_Status" = Ok X ∧
    df_getitem df3 "Loan_Status" = Ok y ∧
    fit_forest X y = Ok model.
Proof.
  unfold train_model. cbn [mbind result_bind]. intros H.
  destruct (df_drop csv "Loan_ID") as [df1|] eqn:H1; [|discriminate H].
  cbn [mbind result_bind] in H.
  destruct (impute df1) as [df2|] eqn:H2; [|discriminate H].
  cbn [mbind result_bind] in H.
  destruct (encode_columns encoded_columns (df_replace_3plus df2) ∅)
    as [[df3 encs0]|] eqn:H3; [|discriminate H].
  cbn [mbind result_bind] in H.
  destruct (df_drop df3 "Loan_Status") as [X|] eqn:H4; [|discriminate H].
  cbn [mbind result_bind] in H.
  destruct (df_getitem df3 "Loan_Status") as [y|] eqn:H5; [|discriminate H].
  cbn [mbind result_bind] in H.
  destruct (fit_forest X y) as [rf|] eqn:H6; [|discriminate H].
  cbn [mbind result_bind] in H. injection H as <- <-.
  exists df1, df2, df3, X, y. auto 10.
Qed.

Lemma replace_3plus_Str (v : string) :
  v ≠ "3+" → replace_3plus (Str v) = Str v.
Proof.
  intros Hv. unfold replace_3plus. cbn.
  destruct (String.eqb_spec v "3+"); [contradiction|reflexivity].
Qed.

Lemma trained_encoder_knows fit_forest csv model encs col values v :
  train_model fit_forest (Ok csv) = Ok (model, encs) →
  col ∈ encoded_columns →
  df_getitem csv col = Ok values →
  Str v ∈ values →
  v ≠ "3+" →
  ∃ le i, encs !! col = Some le ∧
          position (Str v) (classes_ le) = Some i.
Proof.
  intros Htrain Hcol Hget Hv Hne.
  destruct (train_model_inv _ _ _ _ Htrain)
    as (df1 & df2 & df3 & X & y & Hdrop & Himp & Henc & _).
  assert (col ≠ "Loan_ID") as Hid.
  { intros ->. unfold encoded_columns in Hcol. list_mem. }
  rewrite <- (df_getitem_drop _ _ _ _ Hdrop Hid) in Hget.
  destruct (df_getitem_impute _ _ _ _ Himp Hget) as (s & _ & _ & Hget2).
  destruct (encode_columns_member _ col _ _ _ _ encoded_columns_NoDup Hcol Henc)
    as (values' & le & codes & Hget3 & Hfit & Hle & _).
  rewrite df_getitem_replace_3plus, Hget2 in Hget3. injection Hget3 as <-.
  apply fit_transform_inv in Hfit as [Hfit _].
  destruct (fit_knows _ le (Str v) Hfit) as [i Hi].
  - rewrite <- (replace_3plus_Str v Hne).
    apply list_elem_of_In, in_map, in_map_iff.
    exists (Str v). split; [reflexivity|apply list_elem_of_In, Hv].
  - exists le, i. split; assumption.
Qed.

(** X10.  The encoding contract between the two scripts: a label that occurs
    in one of the six encoded columns of the training data (and is not the
    text "3+") is known to the encoder persisted under that column's name,
    so [transform] returns a code for it at prediction time. *)
Theorem X10_trained_encoders_know_the_training_labels
    (fit_forest : DataFrame → list cell → result RandomForestClassifier)
    (csv : DataFrame) (model : RandomForestClassifier)
    (encs : gmap string LabelEncoder)
    (col : string) (values : list cell) (v : string) :
  train_model fit_forest (Ok csv) = Ok (model, encs) →
  col ∈ encoded_columns →
  df_getitem csv col = Ok values →
  Str v ∈ values →
  v ≠ "3+" →
  ∃ le code, encs !! col = Some le ∧
             transform le [Str v] = Ok [code] ∧
             0 <= code < Z.of_nat (length (classes_ le)).
Proof.
  intros Htrain Hcol Hget Hv Hne.
  destruct (trained_encoder_knows _ _ _ _ _ _ _ Htrain Hcol Hget Hv Hne)
    as (le & i & Hle & Hi).
  exists le, (Z.of_nat i). split; [exact Hle|].
  rewrite transform_singleton, Hi. split; [reflexivity|].
  apply position_lt in Hi. lia.
Qed.

Lemma form_options_facts (col : string) (options : list string) (o : string) :
  (col, options) ∈ form_options →
  o ∈ options →
  col ∈ encoded_columns ∧ o ≠ "3+".
Proof.
  unfold form_options, encoded_columns. intros Hcol Ho.
  repeat (apply elem_of_cons in Hcol as [[= -> ->]|Hcol];
          [split; [list_mem|intros ->; list_mem]|]).
  list_mem.
Qed.

(** X11.  End to end: when every option of the five categorical select boxes
    occurs in its column of the training data, the persisted encoders cover
    the form, and no form filled from the options can fail to be encoded. *)
Theorem X11_training_on_all_options_covers_the_form
    (fit_forest : DataFrame → list cell → result RandomForestClassifier)
    (csv : DataFrame) (model : RandomForestClassifier)
    (encs : gmap string LabelEncoder) :
  train_model fit_forest (Ok csv) = Ok (model, encs) →
  (∀ col options,
     (col, options) ∈ form_options →
     ∃ values, df_getitem csv col = Ok values ∧
               ∀ o, o ∈ options → Str o ∈ values) →
  encoders_cover encs ∧
  ∀ f, form_valid f →
       ∃ df, ending (user_input_features encs f) = Return df.
Proof.
  intros Htrain Hall.
  assert (encoders_cover encs) as Hcov.
  { intros col options le o Hcol Hle Ho.
    destruct (Hall col options Hcol) as (values & Hget & Hvalues).
    destruct (form_options_facts col options o Hcol Ho) as [Hc Hne].
    destruct (trained_encoder_knows _ _ _ _ _ _ _ Htrain Hc Hget
                (Hvalues o Ho) Hne) as (le' & i & Hle' & Hi).
    assert (le' = le) as -> by congruence. eauto. }
  split; [exact Hcov|].
  intros f Hv. destruct (encode_form_covered encs f Hcov Hv) as (df & Hdf).
  exists df. apply user_input_features_returns. exact Hdf.
Qed.

Lemma df_drop_Forall (Q : string * list cell → Prop) (df df' : DataFrame)
    (name : string) :
  df_drop df name = Ok df' → Forall Q df → Forall Q df'.
Proof.
  unfold df_drop. destruct (existsb _ _); [|discriminate]. intros [= <-] H.
  apply Forall_forall. intros column Hc.
  apply list_elem_of_In, List.filter_In in Hc as [Hc _].
  rewrite Forall_forall in H. apply H, list_elem_of_In, Hc.
Qed.

Lemma replace_3plus_cells (df : DataFrame) :
  Forall (fun column => Forall (fun c => is_nan c = false) column.2) df →
  Forall (fun column =>
            Forall (fun c => is_nan c = false ∧ c ≠ Str "3+") column.2)
         (df_replace_3plus df).
Proof.
  intros H. unfold df_replace_3plus. apply Forall_forall. intros column Hc.
  apply list_elem_of_In, in_map_iff in Hc as ([n vs] & <- & Hin).
  cbn [snd]. apply Forall_forall. intros c Hcell.
  apply list_elem_of_In, in_map_iff in Hcell as (c0 & <- & Hc0).
  rewrite Forall_forall in H.
  pose proof (H (n, vs) (proj2 (list_elem_of_In _ _) Hin)) as Hvs.
  cbn [snd] in Hvs. rewrite Forall_forall in Hvs.
  pose proof (Hvs c0 (proj2 (list_elem_of_In _ _) Hc0)) as Hnan.
  unfold replace_3plus. destruct (cell_eqb c0 (Str "3+")) eqn:E.
  - split; [reflexivity|discriminate].
  - split; [exact Hnan|]. intros ->. cbn in E. discriminate E.
Qed.

(** X12.  What the forest is fitted on: the columns of the data set without
    Loan_ID and Loan_Status, in the order of the file; no cell of them is
    missing and none is the text "3+"; the target is the column of codes of
    Loan_Status.  For a file laid out as Loan_ID, the eleven features in the
    order of [feature_order], Loan_Status, the columns the forest is fitted
    on are those of the frame the Predictor builds, in the same order. *)
Theorem X12_what_the_forest_is_fitted_on
    (fit_forest : DataFrame → list cell → result RandomForestClassifier)
    (csv : DataFrame) (model : RandomForestClassifier)
    (encs : gmap string LabelEncoder) :
  train_model fit_forest (Ok csv) = Ok (model, encs) →
  ∃ X y,
    fit_forest X y = Ok model ∧
    columns X =
      List.filter (fun c => negb (String.eqb c "Loan_Status"))
        (List.filter (fun c => negb (String.eqb c "Loan_ID")) (columns csv)) ∧
    Forall (fun column =>
              Forall (fun c => is_nan c = false ∧ c ≠ Str "3+") column.2) X ∧
    (∃ codes, y = map (fun z => Num (inject_Z z)) codes ∧
              Forall (fun z => 0 <= z) codes) ∧
    (columns csv = "Loan_ID" :: feature_order ++ ["Loan_Status"] →
     columns X = feature_order).
Proof.
  intros Htrain.
  destruct (train_model_inv _ _ _ _ Htrain)
    as (df1 & df2 & df3 & X & y & Hdrop & Himp & Henc & HX & Hy & Hfit).
  exists X, y.
  destruct (columns_drop _ _ _ Hdrop) as [_ Hc1].
  destruct (columns_impute _ _ Himp) as (Hc2 & _ & _ & Hnan).
  pose proof (encode_columns_columns _ _ _ _ _ Henc) as Hc3.
  rewrite columns_replace_3plus in Hc3.
  destruct (columns_drop _ _ _ HX) as [_ HcX].
  assert (columns X =
      List.filter (fun c => negb (String.eqb c "Loan_Status"))
        (List.filter (fun c => negb (String.eqb c "Loan_ID")) (columns csv)))
    as Hcols by congruence.
  split; [exact Hfit|]. split; [exact Hcols|]. split; [|split].
  - apply (df_drop_Forall _ _ _ _ HX).
    refine (encode_columns_cells _ _ _ _ _ _ _
              (replace_3plus_cells _ Hnan) Henc).
    intros z. split; [reflexivity|discriminate].
  - destruct (encode_columns_member encoded_columns "Loan_Status" _ _ _ _
                encoded_columns_NoDup ltac:(unfold encoded_columns; list_mem) Henc)
      as (values & le & codes & _ & Hft & _ & Hget).
    exists codes. split; [congruence|].
    apply fit_transform_inv in Hft as [_ Ht]. apply transform_decodes in Ht.
    clear -Ht. induction Ht as [|v code vs codes [[H0 _] _] _ IH];
      constructor; assumption.
  - intros Hlayout. rewrite Hcols, Hlayout. reflexivity.
Qed.


(** ** A submission that gets its prediction; the identifier column *)

(** X14.  What a submission that gets its prediction renders after the
    button, in this order: the decision with the probability, the plot of
    the three amounts of the form, the frame that was submitted, then the
    advisory lines: first the one on the credit history, then the one on the
    income if there is one, then the one on the loan amount if there is
    one; the run returns. *)
Theorem X14_what_a_predicted_submission_renders
    (disk : artifacts) (model : classifier) (encs : gmap string LabelEncoder)
    (f : form) (df : DataFrame) (prediction : Z) (proba : Q) :
  loan_model disk = Ok model →
  label_encoders_file disk = Ok encs →
  encode_form encs f = Ok df →
  predict_clicked f = true →
  predict_eligibility model df = Ok (prediction, proba) →
  app disk f =
    Script (Title "Loan Eligibility Prediction System"
            :: SidebarHeader "User Input Features"
            :: sidebar_inputs
            ++ [SidebarButton "Predict Eligibility";
                Subheader "Prediction Result";
                if Z.eqb prediction 1
                then LoanApproved proba else LoanNotApproved proba;
                Subheader "Loan Distribution Insights";
                Pyplot [Num (inject_Z (applicant_income f));
                        Num (inject_Z (coapplicant_income f));
                        Num (inject_Z (loan_amount f))];
                Subheader "User Input Summary";
                WriteFrame df;
                Subheader "Additional Insights"]
            ++ map Write
                 ([if Z.eqb (credit_history f) 1
                   then GoodCreditHistory else PoorCreditHistory]
                  ++ (if Z.ltb 8000 (applicant_income f)
                      then [HighApplicantIncome] else [])
                  ++ (if Z.ltb 300 (loan_amount f)
                      then [LargeLoanAmount] else [])))
           (Return tt).
Proof.
  intros Hm He Hdf Hc Hp.
  rewrite (app_submitted _ _ _ _ _ Hm He Hdf Hc).
  destruct (encode_form_inv _ _ _ Hdf)
    as (g & m & e & s & p & d & _ & _ & _ & _ & _ & _ & ->).
  rewrite (prediction_handler_returns _ _ _ _ _ _ _ _ _ _ Hp).
  cbn [rendered ending]. unfold result_elements.
  destruct (Z.eqb (credit_history f) 1), (Z.ltb 8000 (applicant_income f)),
    (Z.ltb 300 (loan_amount f)); reflexivity.
Qed.

Lemma df_drop_setitem (df : DataFrame) (col : string) (values : list cell) :
  df_drop (df_setitem df col values) col = df_drop df col.
Proof.
  unfold df_drop. rewrite columns_setitem.
  destruct (existsb _ _); [|reflexivity]. f_equal.
  unfold df_setitem. induction df as [|[n vs] df IH]; [reflexivity|].
  cbn. destruct (String.eqb_spec n col) as [->|Hn]; cbn.
  - rewrite String.eqb_refl. cbn. exact IH.
  - destruct (String.eqb_spec n col); [contradiction|]. cbn. f_equal. exact IH.
Qed.

(** X15.  The identifier never reaches the encoders or the forest: whatever
    the Loan_ID column holds, the Trainer returns the same encoders and the
    same forest. *)
Theorem X15_loan_id_does_not_matter
    (fit_forest : DataFrame → list cell → result RandomForestClassifier)
    (csv : DataFrame) (ids : list cell) :
  train_model fit_forest (Ok (df_setitem csv "Loan_ID" ids))
  = train_model fit_forest (Ok csv).
Proof.
  unfold train_model. cbn [mbind result_bind].
  rewrite df_drop_setitem. reflexivity.
Qed.

(** * The further properties at concrete inputs *)

Lemma full_encoders_registered : all_registered full_encoders.
Proof.
  intros col Hcol. unfold form_options in Hcol. cbn in Hcol.
  repeat (apply elem_of_cons in Hcol as [->|Hcol]; [eexists; reflexivity|]).
  apply elem_of_nil in Hcol as [].
Defined.

Lemma full_encoders_cover : encoders_cover full_encoders.
Proof.
  intros col options le o Hcol Hle Ho. unfold form_options in Hcol.
  repeat (apply elem_of_cons in Hcol as [Hcol|Hcol];
          [injection Hcol as -> ->; injection Hle as <-;
           repeat (apply elem_of_cons in Ho as [->|Ho]; [eexists; reflexivity|]);
           apply elem_of_nil in Ho as []|]).
  apply elem_of_nil in Hcol as [].
Defined.

Lemma sample_csv_trains :
  train_model (constant_fit lenient_forest) (Ok sample_csv)
  = Ok (lenient_forest, full_encoders).
Proof. vm_compute. reflexivity. Defined.

Lemma sample_csv_has_all_options (col : string) (options : list string) :
  (col, options) ∈ form_options →
  ∃ values, df_getitem sample_csv col = Ok values ∧
            ∀ o, o ∈ options → Str o ∈ values.
Proof.
  intros Hcol. unfold form_options in Hcol.
  repeat (apply elem_of_cons in Hcol as [Hcol|Hcol];
          [injection Hcol as -> ->; eexists; split; [reflexivity|];
           intros o Ho;
           repeat (apply elem_of_cons in Ho as [->|Ho]; [elem_of_list|]);
           apply elem_of_nil in Ho as []|]).
  apply elem_of_nil in Hcol as [].
Defined.

Lemma X1_witness :
  app (disk_with lenient_forest full_encoders) idle_form =
    Script (Title "Loan Eligibility Prediction System"
            :: SidebarHeader "User Input Features"
            :: sidebar_inputs ++ [SidebarButton "Predict Eligibility"])
           (Return tt) ∧
  (∀ model',
     app {| loan_model := Ok model';
            label_encoders_file := Ok full_encoders |} idle_form
     = app (disk_with lenient_forest full_encoders) idle_form).
Proof.
  apply (X1_idle_run_renders_the_form_only
           (disk_with lenient_forest full_encoders)
           (forest_classifier lenient_forest) full_encoders idle_form
           default_frame); reflexivity.
Defined.

Lemma X2_witness :
  app broken_disk default_form =
    Script (Title "Loan Eligibility Prediction System"
            :: SidebarHeader "User Input Features"
            :: sidebar_inputs
            ++ [SidebarButton "Predict Eligibility";
                ErrorDuringPrediction
                  (ValueError "X has 11 features, but the forest expects 12")])
           (Return tt) ∧
  insights_of (rendered (app broken_disk default_form)) = [].
Proof.
  apply (X2_prediction_failure_is_caught broken_disk broken_classifier
           full_encoders default_form default_frame); reflexivity.
Defined.

Lemma X4_witness : same_inputs default_form idle_form.
Proof.
  apply (X4_full_encoders_separate_submissions full_encoders default_form
           idle_form default_frame).
  - exact full_encoders_registered.
  - exact default_form_valid.
  - unfold form_valid, idle_form; cbn. repeat split; try lia; elem_of_list.
  - reflexivity.
  - reflexivity.
Defined.

Lemma X5_witness :
  encode_form no_gender_encoders default_form
    = encode_form no_gender_encoders female_form ∧
  app (disk_with lenient_forest no_gender_encoders) default_form
    = app (disk_with lenient_forest no_gender_encoders) female_form.
Proof.
  apply (X5_missing_encoder_hides_the_choice
           (disk_with lenient_forest no_gender_encoders) no_gender_encoders
           default_form female_form).
  - reflexivity.
  - unfold same_where_encoded. split; [left; reflexivity|].
    repeat split; right; reflexivity.
  - reflexivity.
Defined.

Lemma X6_witness :
  (∃ df, ending (user_input_features full_encoders default_form) = Return df) ∧
  (label_encoders_file (disk_with tied_forest full_encoders) = Ok full_encoders →
   ∀ e, ending (app (disk_with tied_forest full_encoders) default_form)
        ≠ Raised e).
Proof.
  apply (X6_covering_encoders_never_raise (disk_with tied_forest full_encoders)
           full_encoders default_form).
  - exact full_encoders_cover.
  - exact default_form_valid.
Defined.

Lemma X7_witness :
  Forall (fun column => ∃ z, column.2 = [Num (inject_Z z)] ∧ 0 <= z)
         default_frame ∧
  (∃ d, first_of default_frame "Dependents" = Ok (Num (inject_Z d)) ∧
        0 <= d <= 3) ∧
  Forall (fun '(col, value) =>
            ∀ le, full_encoders !! col = Some le →
                  ∃ code, first_of default_frame col = Ok (Num (inject_Z code)) ∧
                          0 <= code < Z.of_nat (length (classes_ le)))
         (categorical_inputs default_form).
Proof.
  apply (X7_features_are_bounded full_encoders default_form default_frame).
  - exact default_form_valid.
  - reflexivity.
Defined.

Lemma X8_witness :
  app (disk_with one_class_forest full_encoders) default_form =
  Script (Title "Loan Eligibility Prediction System"
          :: SidebarHeader "User Input Features"
          :: sidebar_inputs
          ++ [SidebarButton "Predict Eligibility";
              ErrorDuringPrediction (IndexError "index out of range")])
         (Return tt).
Proof.
  apply (X8_one_class_forest_fails_every_prediction one_class_forest
           full_encoders default_form default_frame).
  - cbn. lia.
  - reflexivity.
  - reflexivity.
Defined.

Lemma X9_witness :
  ∃ codes,
    fit_transform [Str "Male"; Str "Male"; Str "Male"; Str "Female"]
      = Ok (encoder_of ["Female"; "Male"], codes) ∧
    Forall2 (fun v code =>
               0 <= code
               < Z.of_nat (length (classes_ (encoder_of ["Female"; "Male"]))) ∧
               ∃ c, classes_ (encoder_of ["Female"; "Male"]) !! Z.to_nat code
                    = Some c ∧
                    same_label c v = true)
            [Str "Male"; Str "Male"; Str "Male"; Str "Female"] codes.
Proof.
  apply (X9_fit_transform_round_trip
           [Str "Male"; Str "Male"; Str "Male"; Str "Female"]
           (encoder_of ["Female"; "Male"])).
  reflexivity.
Defined.

Lemma X10_witness :
  ∃ le code,
    full_encoders !! "Property_Area" = Some le ∧
    transform le [Str "Semiurban"] = Ok [code] ∧
    0 <= code < Z.of_nat (length (classes_ le)).
Proof.
  apply (X10_trained_encoders_know_the_training_labels
           (constant_fit lenient_forest) sample_csv lenient_forest
           full_encoders "Property_Area"
           [Str "Urban"; Str "Rural"; Str "Urban"; Str "Semiurban"]
           "Semiurban").
  - exact sample_csv_trains.
  - unfold encoded_columns. elem_of_list.
  - reflexivity.
  - elem_of_list.
  - discriminate.
Defined.

Lemma X11_witness :
  encoders_cover full_encoders ∧
  ∀ f, form_valid f →
       ∃ df, ending (user_input_features full_encoders f) = Return df.
Proof.
  apply (X11_training_on_all_options_covers_the_form
           (constant_fit lenient_forest) sample_csv lenient_forest
           full_encoders).
  - exact sample_csv_trains.
  - exact sample_csv_has_all_options.
Defined.

Lemma X12_witness :
  ∃ X y,
    constant_fit lenient_forest X y = Ok lenient_forest ∧
    columns X =
      List.filter (fun c => negb (String.eqb c "Loan_Status"))
        (List.filter (fun c => negb (String.eqb c "Loan_ID"))
           (columns sample_csv)) ∧
    Forall (fun column =>
              Forall (fun c => is_nan c = false ∧ c ≠ Str "3+") column.2) X ∧
    (∃ codes, y = map (fun z => Num (inject_Z z)) codes ∧
              Forall (fun z => 0 <= z) codes) ∧
    (columns sample_csv = "Loan_ID" :: feature_order ++ ["Loan_Status"] →
     columns X = feature_order).
Proof.
  apply (X12_what_the_forest_is_fitted_on (constant_fit lenient_forest)
           sample_csv lenient_forest full_encoders).
  exact sample_csv_trains.
Defined.


Lemma X14_witness :
  ∃ proba,
    app (disk_with lenient_forest full_encoders) default_form =
    Script (Title "Loan Eligibility Prediction System"
            :: SidebarHeader "User Input Features"
            :: sidebar_inputs
            ++ [SidebarButton "Predict Eligibility";
                Subheader "Prediction Result";
                LoanApproved proba;
                Subheader "Loan Distribution Insights";
                Pyplot [Num 5000; Num 2000; Num 100];
                Subheader "User Input Summary";
                WriteFrame default_frame;
                Subheader "Additional Insights";
                Write GoodCreditHistory])
           (Return tt) ∧
    (proba == 275 # 4)%Q.
Proof.
  eexists. split.
  - refine (X14_what_a_predicted_submission_renders
             (disk_with lenient_forest full_encoders)
             (forest_classifier lenient_forest) full_encoders default_form
             default_frame 1 _ _ _ _ _ _); reflexivity.
  - reflexivity.
Defined.
